(** * Financial-Reporting-Dashboard: the data generator and the BigQuery loader

    A shallow embedding of

    - [data_generator/Financial Data Generator.py], function
      [generate_synthetic_saas_data], and
    - [bigquery/setup/load_data_to_bigquery.py], function
      [load_data_to_bigquery],

    with the properties of the specification stated and proved over it.

    Modelling conventions.

    - Python [int] is [Z]; list indices and loop counters are [nat].
    - Python [float] amounts are exact rationals ([Q]).  Every amount fact
      proved below is a sign fact that rests on three laws only: the sign of
      a product, monotonicity of addition, and monotonicity of rounding; the
      magnitudes involved lie between 1 and 10^4, far from underflow and
      overflow.
    - A [datetime] is a number of seconds since 1970-01-01 00:00:00; the two
      date arguments are the values [datetime.strptime] returns, given as
      day numbers (a string that does not parse raises before anything else
      runs).  The year range of [datetime] is not modelled.
    - The three sources of randomness ([numpy.random], [random], [uuid]) are
      streams of raw numbers consumed through a cursor; each library call
      reads one raw number and maps it into its range.  Theorems quantify
      over all streams.  The library functions ([random.uniform],
      [np.random.choice], [df.sample], [sort_values], ...) are modelled from
      their documented behaviour.
    - A raised exception is a value of type [exn]; the generator runs in a
      state-and-error monad. *)

From Stdlib Require Import ZArith QArith Qround List String Ascii Bool Lia Lqa
  Permutation Sorted.
Import ListNotations.
Local Open Scope Z_scope.

(* ================================================================= *)
(** ** Enumerations (lines 30-44 of the generator) *)

Inductive TxType :=
  Subscription | Refund | OneTimePurchase | Upgrade | Downgrade | AddOn.

Inductive Plan := Free | Basic | Pro | EnterprisePlan | Custom.

Inductive Category :=
  Revenue | MarketingCost | OperationalExpense | InfrastructureCost
| CustomerSupport | RnD | Administrative.

Inductive Region := US | EU | APAC | LATAM | MEA.

Inductive PaymentStatus := Completed | Pending | Failed | Refunded | Disputed.

Inductive CustomerType := B2C | SMB | MidMarket | EnterpriseCustomer.

Definition is_revenue (c : Category) : bool :=
  match c with Revenue => true | _ => false end.

Definition is_failed (s : PaymentStatus) : bool :=
  match s with Failed => true | _ => false end.

Definition transaction_types : list TxType :=
  [Subscription; Refund; OneTimePurchase; Upgrade; Downgrade; AddOn].

Definition subscription_plans : list Plan :=
  [Free; Basic; Pro; EnterprisePlan; Custom].

(** [plan_prices = {'Free': 0, 'Basic': 19.99, 'Pro': 49.99,
    'Enterprise': 199.99, 'Custom': 499.99}] *)
Definition plan_prices (p : Plan) : Q :=
  match p with
  | Free => 0
  | Basic => 1999 # 100
  | Pro => 4999 # 100
  | EnterprisePlan => 19999 # 100
  | Custom => 49999 # 100
  end.

Definition regions : list Region := [US; EU; APAC; LATAM; MEA].
Definition region_weights : list Q := [45 # 100; 25 # 100; 15 # 100; 1 # 10; 5 # 100].

Definition payment_statuses : list PaymentStatus :=
  [Completed; Pending; Failed; Refunded; Disputed].
Definition status_weights : list Q :=
  [9 # 10; 5 # 100; 3 # 100; 15 # 1000; 5 # 1000].

Definition customer_types : list CustomerType :=
  [B2C; SMB; MidMarket; EnterpriseCustomer].
Definition customer_type_weights : list Q := [6 # 10; 25 # 100; 1 # 10; 5 # 100].

(* ================================================================= *)
(** ** The transaction record *)

Record Row := mkRow {
  transaction_id : string;
  timestamp : Z;
  customer_id : string;
  amount : Q;
  transaction_type : TxType;
  subscription_plan : Plan;
  category : Category;
  region : Region;
  payment_status : PaymentStatus;
  customer_type : CustomerType
}.

(* ================================================================= *)
(** ** Randomness and exceptions *)

Inductive exn := ValueError | KeyError | IndexError.

(** The state threaded through the generator: three raw streams with their
    cursors, and the stream of the generator that [df.sample] builds from
    [random_state=42] (a fixed stream whose values are left open). *)
Record World := mkWorld {
  np_random : nat -> N;
  np_used : nat;
  py_random : nat -> N;
  py_used : nat;
  uuid_bits : nat -> N;
  uuid_used : nat;
  seed42 : nat -> N
}.

Definition M (A : Type) : Type := World -> exn + (A * World).

Definition ret {A} (a : A) : M A := fun w => inr (a, w).

Definition raise {A} (e : exn) : M A := fun _ => inl e.

Definition bind {A B} (m : M A) (f : A -> M B) : M B :=
  fun w => match m w with
           | inl e => inl e
           | inr (a, w') => f a w'
           end.

Declare Scope gen_scope.
Delimit Scope gen_scope with gen.
Notation "x <- m ;; k" := (bind m (fun x => k))
  (at level 100, m at next level, right associativity) : gen_scope.
Local Open Scope gen_scope.

Definition np_next : M N := fun w =>
  inr (np_random w (np_used w),
       mkWorld (np_random w) (S (np_used w)) (py_random w) (py_used w)
               (uuid_bits w) (uuid_used w) (seed42 w)).

Definition py_next : M N := fun w =>
  inr (py_random w (py_used w),
       mkWorld (np_random w) (np_used w) (py_random w) (S (py_used w))
               (uuid_bits w) (uuid_used w) (seed42 w)).

Definition uuid_next : M N := fun w =>
  inr (uuid_bits w (uuid_used w),
       mkWorld (np_random w) (np_used w) (py_random w) (py_used w)
               (uuid_bits w) (S (uuid_used w)) (seed42 w)).

Definition get_seed42 : M (nat -> N) := fun w => inr (seed42 w, w).

(** A raw number as a fraction in [0, 1): 53 random bits over 2^53. *)
Definition unit_fraction (r : N) : Q :=
  Z.of_N (r mod 2 ^ 53) # (2 ^ 53).

(** [random.random()] *)
Definition random_random : M Q :=
  r <- py_next ;; ret (unit_fraction r).

(** [random.uniform(a, b)] is [a + (b - a) * random()]. *)
Definition random_uniform (a b : Q) : M Q :=
  u <- random_random ;; ret (a + (b - a) * u)%Q.

(** [random.randint(a, b)], both ends included. *)
Definition random_randint (a b : Z) : M Z :=
  r <- py_next ;; ret (a + Z.of_N r mod (b - a + 1)).

(** [np.random.randint(high)]: an integer in [0, high); [ValueError] when
    [high <= 0]. *)
Definition np_randint (high : Z) : M Z :=
  if high <=? 0 then raise ValueError
  else r <- np_next ;; ret (Z.of_N r mod high).

(** [np.random.choice(a)]: a uniform element; [ValueError] on an empty
    list. *)
Definition np_choice {A} (a : list A) : M A :=
  match a with
  | [] => raise ValueError
  | x :: _ => r <- np_next ;; ret (nth (N.to_nat (r mod N.of_nat (List.length a))) a x)
  end.

(** The element whose cumulative weight first exceeds [u]. *)
Fixpoint weighted_pick {A} (u : Q) (a : list A) (p : list Q) (d : A) : A :=
  match a, p with
  | x :: a', q :: p' =>
      if Qlt_le_dec u q then x else weighted_pick (u - q)%Q a' p' x
  | _, _ => d
  end.

Definition Qsum (p : list Q) : Q := fold_right Qplus 0%Q p.

(** [np.random.choice(a, p=p)]: [ValueError] when [a] is empty, when the
    lengths differ, or when the weights do not sum to 1. *)
Definition np_choice_p {A} (a : list A) (p : list Q) : M A :=
  match a with
  | [] => raise ValueError
  | x :: _ =>
      if negb (Nat.eqb (List.length a) (List.length p)) then raise ValueError
      else if negb (Qeq_bool (Qsum p) 1) then raise ValueError
      else r <- np_next ;; ret (weighted_pick (unit_fraction r) a p x)
  end.

(** A monadic loop that collects one result per element: the model of a list
    comprehension and of a [for] loop whose body ends in [data.append]. *)
Fixpoint for_each {A B} (f : A -> M B) (l : list A) : M (list B) :=
  match l with
  | [] => ret []
  | a :: l' => b <- f a ;; bs <- for_each f l' ;; ret (b :: bs)
  end.

(** [range(n)] *)
Definition range (n : Z) : list nat := seq 0 (Z.to_nat n).

(* ================================================================= *)
(** ** Strings *)

Definition digit_char (d : N) : ascii :=
  match d with
  | 0%N => "0" | 1%N => "1" | 2%N => "2" | 3%N => "3" | 4%N => "4"
  | 5%N => "5" | 6%N => "6" | 7%N => "7" | 8%N => "8" | 9%N => "9"
  | 10%N => "A" | 11%N => "B" | 12%N => "C" | 13%N => "D" | 14%N => "E"
  | _ => "F"
  end%char.

(** The [n] least significant digits of [v] in base [b] (at most 16), most
    significant first, in upper case. *)
Fixpoint digits (b : N) (n : nat) (v : N) : string :=
  match n with
  | O => EmptyString
  | S k => digits b k (v / b) ++ String (digit_char (v mod b)) EmptyString
  end.

(** The number of decimal digits of [v], found with [fuel] steps at most. *)
Fixpoint decimal_width (fuel : nat) (v : N) : nat :=
  match fuel with
  | O => 1
  | S k => if (v <? 10)%N then 1 else S (decimal_width k (v / 10))
  end.

(** [str(i)] for a natural number. *)
Definition str (i : nat) : string :=
  digits 10 (decimal_width i (N.of_nat i)) (N.of_nat i).

Fixpoint zeros (n : nat) : string :=
  match n with
  | O => EmptyString
  | S k => String "0" (zeros k)
  end.

(** [s.zfill(width)] for a string without sign. *)
Definition zfill (width : nat) (s : string) : string :=
  zeros (width - String.length s) ++ s.

(** [s[n:]] *)
Fixpoint drop_chars (n : nat) (s : string) : string :=
  match n, s with
  | O, _ => s
  | S _, EmptyString => EmptyString
  | S k, String _ s' => drop_chars k s'
  end.

(** [str(uuid.uuid4()).replace('-', '')[:12].upper()]: the twelve leading hex
    digits of a version-4 UUID are its 48 most significant bits; the version
    and variant bits lie further right. The raw number is the 128-bit value. *)
Definition uuid4_hex12_of (r : N) : string :=
  digits 16 12 ((r / 2 ^ 80) mod 2 ^ 48).

Definition uuid4_hex12 : M string :=
  r <- uuid_next ;; ret (uuid4_hex12_of r).

(* ================================================================= *)
(** ** Python dictionaries with string keys (insertion ordered) *)

Definition dict (V : Type) : Type := list (string * V).

Fixpoint dict_set {V} (d : dict V) (k : string) (v : V) : dict V :=
  match d with
  | [] => [(k, v)]
  | (k', v') :: d' =>
      if String.eqb k' k then (k, v) :: d' else (k', v') :: dict_set d' k v
  end.

Fixpoint dict_find {V} (d : dict V) (k : string) : option V :=
  match d with
  | [] => None
  | (k', v) :: d' => if String.eqb k' k then Some v else dict_find d' k
  end.

(** [d[k]] *)
Definition dict_get {V} (d : dict V) (k : string) : M V :=
  match dict_find d k with
  | Some v => ret v
  | None => raise KeyError
  end.

(** [{key(x): value(x) for x in items}], continuing from [acc]. *)
Fixpoint dict_comprehension {A V} (key : A -> string) (value : A -> M V)
    (items : list A) (acc : dict V) : M (dict V) :=
  match items with
  | [] => ret acc
  | x :: items' =>
      v <- value x ;;
      dict_comprehension key value items' (dict_set acc (key x) v)
  end.

(* ================================================================= *)
(** ** Dates *)

Definition seconds_per_day : Z := 86400.

(** The civil date (year, month, day) of a day number counted from
    1970-01-01, in the proleptic Gregorian calendar. *)
Definition civil_from_days (days : Z) : Z * Z * Z :=
  let z := days + 719468 in
  let era := z / 146097 in
  let doe := z - era * 146097 in
  let yoe := (doe - doe / 1460 + doe / 36524 - doe / 146096) / 365 in
  let doy := doe - (365 * yoe + yoe / 4 - yoe / 100) in
  let mp := (5 * doy + 2) / 153 in
  let d := doy - (153 * mp + 2) / 5 + 1 in
  let m := if mp <? 10 then mp + 3 else mp - 9 in
  let y := yoe + era * 400 + (if m <=? 2 then 1 else 0) in
  (y, m, d).

(** [timestamp.month] and [timestamp.day] *)
Definition month_of (ts : Z) : Z :=
  let '(_, m, _) := civil_from_days (ts / seconds_per_day) in m.

Definition day_of (ts : Z) : Z :=
  let '(_, _, d) := civil_from_days (ts / seconds_per_day) in d.

(** [timedelta(days=d)], [timedelta(hours=h, minutes=m, seconds=s)] *)
Definition timedelta_days (d : Z) : Z := d * seconds_per_day.

Definition timedelta_hms (h m s : Z) : Z := h * 3600 + m * 60 + s.

(* ================================================================= *)
(** ** Sorting and sampling *)

(** Ascending sort on an integer key: the model of [list.sort()] and of
    [df.sort_values('timestamp').reset_index(drop=True)]. The order that
    pandas gives to rows with equal keys is not specified; here they keep
    their relative order. *)
Fixpoint insert_by {A} (key : A -> Z) (x : A) (l : list A) : list A :=
  match l with
  | [] => [x]
  | y :: l' => if key x <=? key y then x :: l else y :: insert_by key x l'
  end.

Fixpoint sort_by {A} (key : A -> Z) (l : list A) : list A :=
  match l with
  | [] => []
  | x :: l' => insert_by key x (sort_by key l')
  end.

Fixpoint remove_nth {A} (j : nat) (l : list A) : list A :=
  match j, l with
  | _, [] => []
  | O, _ :: l' => l'
  | S j', x :: l' => x :: remove_nth j' l'
  end.

(** Drawing [k] elements without replacement: each step picks one of the
    remaining elements with the next raw number and removes it. *)
Fixpoint draw_without_replacement {A} (k : nat) (pool : list A)
    (src : nat -> N) (pos : nat) : list A :=
  match k with
  | O => []
  | S k' =>
      match pool with
      | [] => []
      | x :: _ =>
          let j := N.to_nat (src pos mod N.of_nat (List.length pool)) in
          nth j pool x :: draw_without_replacement k' (remove_nth j pool) src (S pos)
      end
  end.

(** [df.sample(n, random_state=42)]: [n] rows without replacement, drawn
    with a generator freshly seeded with 42; [ValueError] when [n] is
    negative or larger than the frame. *)
Definition sample {A} (n : Z) (df : list A) : M (list A) :=
  if n <? 0 then raise ValueError
  else if Z.of_nat (List.length df) <? n then raise ValueError
  else src <- get_seed42 ;; ret (draw_without_replacement (Z.to_nat n) df src 0).

(* ================================================================= *)
(** ** Rounding *)

Definition Qltb (x y : Q) : bool := negb (Qle_bool y x).

(** Rounding to the nearest integer, ties to even. *)
Definition round_half_even (x : Q) : Z :=
  let f := Qfloor x in
  match (x - inject_Z f ?= 1 # 2)%Q with
  | Lt => f
  | Gt => f + 1
  | Eq => if Z.even f then f else f + 1
  end.

(** [round(x, 2)] *)
Definition round2 (x : Q) : Q := round_half_even (x * 100) # 100.

(* ================================================================= *)
(** ** The generator *)

(** [assign_plan] (lines 55-63) *)
Definition assign_plan (ctype : CustomerType) : M Plan :=
  match ctype with
  | B2C => np_choice_p [Free; Basic; Pro] [6 # 10; 3 # 10; 1 # 10]
  | SMB => np_choice_p [Basic; Pro] [7 # 10; 3 # 10]
  | MidMarket => np_choice_p [Pro; EnterprisePlan] [7 # 10; 3 # 10]
  | EnterpriseCustomer => np_choice_p [EnterprisePlan; Custom] [6 # 10; 4 # 10]
  end.

(** Lines 89-92: the transaction type. For the first row [random.random()]
    is not called ([and] short-circuits). *)
Definition choose_tx_type (i : nat) : M TxType :=
  other <- (if Nat.ltb 0 i
            then u <- random_random ;; ret (Qltb u (1 # 10))
            else ret false) ;;
  if other
  then np_choice [Refund; OneTimePurchase; Upgrade; Downgrade; AddOn]
  else ret Subscription.

(** Lines 95-101: the category. *)
Definition choose_category (tx_type : TxType) : M Category :=
  match tx_type with
  | Subscription | OneTimePurchase | Upgrade | AddOn => ret Revenue
  | Refund => ret Revenue
  | Downgrade =>
      np_choice [MarketingCost; OperationalExpense; InfrastructureCost;
                 CustomerSupport; RnD; Administrative]
  end.

(** Lines 104-125: the amount before the seasonal effects. *)
Definition base_amount (tx_type : TxType) (cat : Category) (customer_plan : Plan)
  : M Q :=
  let base_price := plan_prices customer_plan in
  if is_revenue cat then
    match tx_type with
    | Subscription => ret base_price
    | Upgrade => random_uniform 10 100
    | AddOn => random_uniform 5 50
    | OneTimePurchase => random_uniform 20 500
    | Refund => u <- random_uniform (1 # 10) 1 ;; ret (- base_price * u)%Q
    | Downgrade => u <- random_uniform 10 100 ;; ret (- u)%Q
    end
  else
    match cat with
    | MarketingCost => u <- random_uniform 10 5000 ;; ret (- u)%Q
    | InfrastructureCost => u <- random_uniform 50 2000 ;; ret (- u)%Q
    | _ => u <- random_uniform 20 1000 ;; ret (- u)%Q
    end.

Definition is_subscription (t : TxType) : bool :=
  match t with Subscription => true | _ => false end.

(** Lines 132-138: the end-of-month and December effects. *)
Definition seasonal (ts : Z) (tx_type : TxType) (amt : Q) : M Q :=
  amt1 <- (if (25 <=? day_of ts) && is_subscription tx_type
           then m <- random_uniform 1 (12 # 10) ;; ret (amt * m)%Q
           else ret amt) ;;
  if month_of ts =? 12
  then m <- random_uniform (11 # 10) (13 # 10) ;; ret (amt1 * m)%Q
  else ret amt1.

(** [timestamps[i]] *)
Definition list_get {A} (l : list A) (i : nat) : M A :=
  match nth_error l i with
  | Some x => ret x
  | None => raise IndexError
  end.

(** The body of the main loop (lines 83-155) for index [i]. *)
Definition generate_row (customer_ids : list string)
    (customer_type_map : dict CustomerType) (customer_plan_map : dict Plan)
    (timestamps : list Z) (i : nat) : M Row :=
  cid <- np_choice customer_ids ;;
  ctype <- dict_get customer_type_map cid ;;
  customer_plan <- dict_get customer_plan_map cid ;;
  tx_type <- choose_tx_type i ;;
  cat <- choose_category tx_type ;;
  amt <- base_amount tx_type cat customer_plan ;;
  reg <- np_choice_p regions region_weights ;;
  status <- np_choice_p payment_statuses status_weights ;;
  ts <- list_get timestamps i ;;
  amt' <- seasonal ts tx_type amt ;;
  let prefix := (if is_revenue cat then "REV_" else "EXP_")%string in
  hex <- uuid4_hex12 ;;
  ret (mkRow (prefix ++ hex)%string ts cid (round2 amt') tx_type customer_plan cat
             reg status ctype).

(** Lines 168-170: the retry record made from a failed row. *)
Definition retry_row (failed_row : Row) (retry_date : Z) : Row :=
  mkRow ("RETRY_" ++ drop_chars 4 (transaction_id failed_row))%string
        retry_date
        (customer_id failed_row) (amount failed_row)
        (transaction_type failed_row) (subscription_plan failed_row)
        (category failed_row) (region failed_row)
        Completed
        (customer_type failed_row).

(** [df[df['payment_status'] == 'Failed'].index], with labels from
    [from]. *)
Fixpoint failed_indices_from (from : nat) (df : list Row) : list nat :=
  match df with
  | [] => []
  | r :: df' =>
      if is_failed (payment_status r)
      then from :: failed_indices_from (S from) df'
      else failed_indices_from (S from) df'
  end.

(** [df.loc[idx]] on a frame whose labels are 0, 1, 2, ... *)
Definition loc (df : list Row) (idx : nat) : M Row :=
  match nth_error df idx with
  | Some r => ret r
  | None => raise KeyError
  end.

(** Lines 163-171: the retry pass over the failed labels; [df] grows at its
    end while the loop runs. *)
Fixpoint retry_pass (end_date : Z) (failed_indices : list nat) (df : list Row)
  : M (list Row) :=
  match failed_indices with
  | [] => ret df
  | idx :: rest =>
      u <- random_random ;;
      if Qltb u (7 # 10) then
        failed_row <- loc df idx ;;
        d <- random_randint 1 7 ;;
        let retry_date := timestamp failed_row + timedelta_days d in
        if retry_date <=? end_date
        then retry_pass end_date rest (df ++ [retry_row failed_row retry_date])
        else retry_pass end_date rest df
      else retry_pass end_date rest df
  end.

(** [generate_synthetic_saas_data(num_rows, start_date, end_date)]; the two
    dates are day numbers, and the result is the list of rows of the
    returned frame, in order. *)
Definition generate_synthetic_saas_data (num_rows start_day end_day : Z)
  : M (list Row) :=
  let start_date := start_day * seconds_per_day in
  let end_date := end_day * seconds_per_day in
  (* int(num_rows / 10) truncates towards zero (the float quotient is exact
     for any row count below 2^53) *)
  let num_customers := Z.quot num_rows 10 in
  let customer_ids :=
    map (fun i => ("CUST_" ++ zfill 6 (str i))%string) (seq 1 (Z.to_nat num_customers)) in
  customer_type_map <-
    dict_comprehension (fun cid => cid)
      (fun _ => np_choice_p customer_types customer_type_weights)
      customer_ids [] ;;
  customer_plan_map <-
    dict_comprehension fst (fun item => assign_plan (snd item))
      customer_type_map [] ;;
  let date_range := end_day - start_day in
  dates <- for_each (fun _ => d <- np_randint date_range ;;
                              ret (start_date + timedelta_days d))
                    (range num_rows) ;;
  let sorted_dates := sort_by (fun d => d) dates in
  timestamps <- for_each (fun date => h <- random_randint 8 20 ;;
                                      m <- random_randint 0 59 ;;
                                      s <- random_randint 0 59 ;;
                                      ret (date + timedelta_hms h m s))
                         sorted_dates ;;
  data <- for_each (generate_row customer_ids customer_type_map
                                 customer_plan_map timestamps)
                   (range num_rows) ;;
  (* a frame built from an empty list has no columns: df['payment_status']
     raises KeyError *)
  failed_indices <- (match data with
                     | [] => raise KeyError
                     | _ => ret (failed_indices_from 0 data)
                     end) ;;
  df <- retry_pass end_date failed_indices data ;;
  let df := sort_by timestamp df in
  if num_rows <? Z.of_nat (List.length df)
  then s <- sample num_rows df ;; ret (sort_by timestamp s)
  else ret df.

(** The first pass alone (lines 46-155): the rows of [data] before the
    frame is built, as [generate_synthetic_saas_data] computes them. *)
Definition first_pass (num_rows start_day end_day : Z) : M (list Row) :=
  let start_date := start_day * seconds_per_day in
  let num_customers := Z.quot num_rows 10 in
  let customer_ids :=
    map (fun i => ("CUST_" ++ zfill 6 (str i))%string) (seq 1 (Z.to_nat num_customers)) in
  customer_type_map <-
    dict_comprehension (fun cid => cid)
      (fun _ => np_choice_p customer_types customer_type_weights)
      customer_ids [] ;;
  customer_plan_map <-
    dict_comprehension fst (fun item => assign_plan (snd item))
      customer_type_map [] ;;
  let date_range := end_day - start_day in
  dates <- for_each (fun _ => d <- np_randint date_range ;;
                              ret (start_date + timedelta_days d))
                    (range num_rows) ;;
  let sorted_dates := sort_by (fun d => d) dates in
  timestamps <- for_each (fun date => h <- random_randint 8 20 ;;
                                      m <- random_randint 0 59 ;;
                                      s <- random_randint 0 59 ;;
                                      ret (date + timedelta_hms h m s))
                         sorted_dates ;;
  for_each (generate_row customer_ids customer_type_map
                         customer_plan_map timestamps)
           (range num_rows).

(* ----------------------------------------------------------------- *)
(** *** Concrete runs *)

(** A world whose three streams are given and whose cursors are at 0. *)
Definition world_of (np py uu sd : nat -> N) : World :=
  mkWorld np 0 py 0 uu 0 sd.

(** Every raw number is 0. *)
Definition zero_world : World :=
  world_of (fun _ => 0%N) (fun _ => 0%N) (fun _ => 0%N) (fun _ => 0%N).

(** An equidistributed stream of 53-bit numbers: the high bits of the
    multiples of [a], shifted by [c], modulo 2^64. *)
Definition weyl (a c : N) (k : nat) : N :=
  (((N.of_nat k + 1) * a + c) mod 2 ^ 64 / 2 ^ 11)%N.

(** A world with varied draws: plans of several prices, refunds, an expense
    row, December rows, failed payments and retries. *)
Definition mixed_world : World :=
  world_of (weyl 6364136223846793005 15534753549661669669)
           (weyl 2862933555777941757 22801429641683397463)
           (fun k => (weyl 3935559000370003845 2691343689449507683 k * 2 ^ 75)%N)
           (weyl 1181783497276652981 2).

(** The rows of a run, or the empty list when the run raises. *)
Definition rows_of (r : exn + (list Row * World)) : list Row :=
  match r with
  | inr (df, _) => df
  | inl _ => []
  end.

(* ================================================================= *)
(** ** Predicates used in the statements *)

(** The part of the world that the UUID source owns. *)
Definition uuid_state (w : World) : (nat -> N) * nat := (uuid_bits w, uuid_used w).

(** A computation that draws no UUID. *)
Definition keeps_uuid {A} (m : M A) : Prop :=
  forall w a w1, m w = inr (a, w1) -> uuid_state w1 = uuid_state w.

(** The sign that the amount of a row has, from its transaction type, its
    category and the plan of its customer (lines 104-125): [Gt] positive,
    [Eq] zero, [Lt] negative. A subscription and a refund are multiples of
    the plan price, which is 0 for the 'Free' plan. *)
Definition amount_sign (tx_type : TxType) (cat : Category) (plan : Plan)
  : comparison :=
  if is_revenue cat then
    match tx_type with
    | Subscription => match plan with Free => Eq | _ => Gt end
    | Upgrade | AddOn | OneTimePurchase => Gt
    | Refund => match plan with Free => Eq | _ => Lt end
    | Downgrade => Lt
    end
  else Lt.

(** An amount of sign [c] that is zero or at least 1 in magnitude. *)
Definition sized (c : comparison) (a : Q) : Prop :=
  match c with
  | Gt => (1 <= a)%Q
  | Eq => (a == 0)%Q
  | Lt => (a <= -1)%Q
  end.

(** [r] is the retry record of the failed row [orig]: made one to seven days
    later and not after [end_date], completed, renamed, and otherwise equal
    to [orig]. *)
Definition is_retry_of (end_date : Z) (orig r : Row) : Prop :=
  payment_status orig = Failed /\
  payment_status r = Completed /\
  (exists d, 1 <= d <= 7 /\ timestamp r = timestamp orig + timedelta_days d) /\
  timestamp r <= end_date /\
  transaction_id r = ("RETRY_" ++ drop_chars 4 (transaction_id orig))%string /\
  customer_id r = customer_id orig /\
  amount r = amount orig /\
  transaction_type r = transaction_type orig /\
  subscription_plan r = subscription_plan orig /\
  category r = category orig /\
  region r = region orig /\
  customer_type r = customer_type orig.

(** The rows that the retry pass appends to the frame [df0] while it walks
    the labels [idxs]: each label is skipped or gives one retry record. *)
Inductive retries (end_date : Z) (df0 : list Row) : list nat -> list Row -> Prop :=
| retries_nil : retries end_date df0 [] []
| retries_skip idx idxs extra :
    retries end_date df0 idxs extra ->
    retries end_date df0 (idx :: idxs) extra
| retries_emit idx idxs extra orig d :
    nth_error df0 idx = Some orig ->
    1 <= d <= 7 ->
    timestamp orig + timedelta_days d <= end_date ->
    retries end_date df0 idxs extra ->
    retries end_date df0 (idx :: idxs)
            (retry_row orig (timestamp orig + timedelta_days d) :: extra).

(** The twelve characters that follow the prefix of an original id. *)
Definition id_suffix (r : Row) : string := drop_chars 4 (transaction_id r).

(** The id of a row of the first pass (lines 141-142): 'REV_' when the
    category is 'Revenue', 'EXP_' otherwise, then twelve characters. *)
Definition original_id (r : Row) : Prop :=
  exists h, String.length h = 12%nat /\
    ((category r = Revenue /\ transaction_id r = ("REV_" ++ h)%string) \/
     (category r <> Revenue /\ transaction_id r = ("EXP_" ++ h)%string)).

(** The id of the retry record [r] of the failed row [orig] (line 170):
    'RETRY_', then the twelve characters that follow the prefix of the id
    of [orig]. *)
Definition retry_id_of (orig r : Row) : Prop :=
  payment_status orig = Failed /\
  String.length (id_suffix orig) = 12%nat /\
  transaction_id r = ("RETRY_" ++ id_suffix orig)%string.

(** The sign of the amount of a row of a given transaction type, for a
    customer on a given plan: [Gt] positive, [Eq] zero, [Lt] negative. *)
Definition sign_by_type (tx_type : TxType) (plan : Plan) : comparison :=
  match tx_type with
  | Subscription => match plan with Free => Eq | _ => Gt end
  | Upgrade | AddOn | OneTimePurchase => Gt
  | Refund => match plan with Free => Eq | _ => Lt end
  | Downgrade => Lt
  end.

(** The UUID prefixes that a run of [num_rows] rows started in [w] draws. *)
Definition uuids_drawn (num_rows : Z) (w : World) : list string :=
  map (fun k => uuid4_hex12_of (uuid_bits w (uuid_used w + k)%nat))
      (range num_rows).

(** What the main loop guarantees for each row (lines 83-155). *)
Definition row_ok (tm : dict CustomerType) (pm : dict Plan) (tss : list Z)
    (r : Row) : Prop :=
  dict_find tm (customer_id r) = Some (customer_type r) /\
  dict_find pm (customer_id r) = Some (subscription_plan r) /\
  In (timestamp r) tss /\
  (amount r ?= 0)%Q
    = amount_sign (transaction_type r) (category r) (subscription_plan r) /\
  is_revenue (category r)
    = match transaction_type r with Downgrade => false | _ => true end /\
  exists h, String.length h = 12%nat /\
    transaction_id r
      = ((if is_revenue (category r) then "REV_" else "EXP_") ++ h)%string.

(** A computation that returns from every world, with a result in [P]. *)
Definition returns_in {A} (P : A -> Prop) (m : M A) : Prop :=
  forall w, exists a w1, m w = inr (a, w1) /\ P a.

Definition returns {A} (m : M A) : Prop := returns_in (fun _ => True) m.

(** What holds of every row of the returned frame, original or retry. *)
Definition final_row_ok (tm : dict CustomerType) (pm : dict Plan) (lo hi : Z)
    (r : Row) : Prop :=
  dict_find tm (customer_id r) = Some (customer_type r) /\
  dict_find pm (customer_id r) = Some (subscription_plan r) /\
  (amount r ?= 0)%Q
    = amount_sign (transaction_type r) (category r) (subscription_plan r) /\
  lo <= timestamp r <= hi.

(** All strings of a list differ, as a test. *)
Fixpoint distinctb (l : list string) : bool :=
  match l with
  | [] => true
  | s :: l' => negb (existsb (String.eqb s) l') && distinctb l'
  end.

(** The id of a retry record. *)
Definition is_retry_id (r : Row) : bool :=
  String.prefix "RETRY_" (transaction_id r).

(* ================================================================= *)
(** ** The loader *)

(** [load_data_to_bigquery] talks to the file system, to pandas and to the
    BigQuery client. The answers of these collaborators are the fields of an
    environment; the function is modelled over every environment. The error
    model is the one of the specification: exceptions that derive from
    [Exception], of which the code tells [GoogleCloudError] from the rest.
    The function yields the list of its log records and external calls, in
    order, together with its outcome. *)
Module Loader.

Inductive exc :=
| GoogleCloudError (msg : string)
| OtherException (msg : string).

Inductive result (A : Type) :=
| Ok (a : A)
| Raise (e : exc).
Arguments Ok {A} a.
Arguments Raise {A} e.

(** A frame as the loader sees it: its column names, its number of rows and
    the number of nulls of each column. *)
Record DataFrame := mkDataFrame {
  columns : list string;
  len : nat;
  null_count : string -> nat
}.

Inductive operation :=
| PathExists | ReadCsv | ToDatetime | ClientFromJson | GetDataset
| CreateDataset | LoadTable | JobResult | GetTable.

Record Env := mkEnv {
  path_exists : string -> bool;
  read_csv : string -> result DataFrame;
  to_datetime : DataFrame -> result DataFrame;
  from_service_account_json : string -> result unit;
  get_dataset : string -> result unit;
  create_dataset : string -> result unit;
  load_table_from_dataframe : DataFrame -> string -> result unit;
  job_result : result unit;
  get_table : string -> result nat;
  (** the elapsed time, formatted with two decimals *)
  duration : string
}.

Inductive level := INFO | WARNING | ERROR.

(** A log record, or an external call and whether it raised. *)
Inductive event :=
| Log (l : level) (msg : string)
| Call (op : operation) (raised : bool).

Definition L (A : Type) : Type := list event * result A.

Definition ret {A} (a : A) : L A := ([], Ok a).

Definition bind {A B} (m : L A) (f : A -> L B) : L B :=
  match m with
  | (t, Ok a) => let '(t', r) := f a in (t ++ t', r)
  | (t, Raise e) => (t, Raise e)
  end.

Definition log (l : level) (msg : string) : L unit := ([Log l msg], Ok tt).

Definition call {A} (op : operation) (r : result A) : L A :=
  match r with
  | Ok a => ([Call op false], Ok a)
  | Raise e => ([Call op true], Raise e)
  end.

(** [try: body except Exception as e: handler(e)] *)
Definition try_except {A} (body : L A) (handler : exc -> L A) : L A :=
  match body with
  | (t, Ok a) => (t, Ok a)
  | (t, Raise e) => let '(t', r) := handler e in (t ++ t', r)
  end.

Declare Scope loader_scope.
Delimit Scope loader_scope with loader.
Notation "x <- m ;; k" := (bind m (fun x => k))
  (at level 100, m at next level, right associativity) : loader_scope.
Notation "m ;; k" := (bind m (fun _ => k))
  (at level 100, right associativity) : loader_scope.
Local Open Scope loader_scope.
Local Open Scope string_scope.

Definition has_column (df : DataFrame) (col : string) : bool :=
  existsb (String.eqb col) (columns df).

(** [', '.join(df.columns)] *)
Fixpoint join (sep : string) (l : list string) : string :=
  match l with
  | [] => ""
  | [s] => s
  | s :: l' => s ++ sep ++ join sep l'
  end.

(** Lines 60-64: a warning for each critical column with nulls. *)
Fixpoint check_critical (df : DataFrame) (critical_columns : list string) : L unit :=
  match critical_columns with
  | [] => ret tt
  | col :: rest =>
      (if has_column df col && Nat.ltb 0 (null_count df col)
       then log WARNING ("Found " ++ str (null_count df col)
                         ++ " null values in critical column " ++ col)
       else ret tt) ;;
      check_critical df rest
  end.

(** Lines 43-131: the body of the [try]. *)
Definition load_body (env : Env)
    (csv_file project_id dataset_id table_id key_path : string) : L bool :=
  log INFO ("Starting BigQuery load process for " ++ csv_file) ;;
  found <- call PathExists (Ok (path_exists env csv_file)) ;;
  if negb found then
    log ERROR ("CSV file not found: " ++ csv_file) ;;
    ret false
  else
    log INFO "Reading CSV file into DataFrame" ;;
    df <- call ReadCsv (read_csv env csv_file) ;;
    log INFO ("Loaded " ++ str (len df) ++ " rows with "
              ++ str (List.length (columns df)) ++ " columns") ;;
    log INFO ("Columns: " ++ join ", " (columns df)) ;;
    check_critical df ["transaction_id"; "timestamp"; "customer_id"; "amount"] ;;
    df <- (if has_column df "timestamp"
           then log INFO "Converting timestamp column to datetime" ;;
                call ToDatetime (to_datetime env df)
           else ret df) ;;
    log INFO ("Initializing BigQuery client with service account: " ++ key_path) ;;
    call ClientFromJson (from_service_account_json env key_path) ;;
    let full_table_id := project_id ++ "." ++ dataset_id ++ "." ++ table_id in
    log INFO ("Target table: " ++ full_table_id) ;;
    try_except
      (call GetDataset (get_dataset env dataset_id) ;;
       log INFO ("Dataset " ++ dataset_id ++ " exists"))
      (fun _ =>
         log INFO ("Dataset " ++ dataset_id ++ " not found, creating...") ;;
         call CreateDataset (create_dataset env (project_id ++ "." ++ dataset_id))) ;;
    log INFO "Starting BigQuery load job" ;;
    call LoadTable (load_table_from_dataframe env df full_table_id) ;;
    log INFO "Waiting for job to complete..." ;;
    call JobResult (job_result env) ;;
    num_rows <- call GetTable (get_table env full_table_id) ;;
    log INFO ("Loaded " ++ str num_rows ++ " rows to " ++ full_table_id) ;;
    log INFO ("Load completed successfully in " ++ duration env ++ " seconds") ;;
    ret true.

(** [load_data_to_bigquery] (lines 20-138): the body under its two
    handlers. *)
Definition load_data_to_bigquery (env : Env)
    (csv_file project_id dataset_id table_id key_path : string) : L bool :=
  try_except
    (load_body env csv_file project_id dataset_id table_id key_path)
    (fun e =>
       match e with
       | GoogleCloudError msg =>
           log ERROR ("Google Cloud error: " ++ msg) ;; ret false
       | OtherException msg =>
           log ERROR ("Unexpected error: " ++ msg) ;; ret false
       end).

(** The operations that a trace calls, and those that raised. *)
Definition calls (t : list event) : list operation :=
  flat_map (fun ev => match ev with Call op _ => [op] | Log _ _ => [] end) t.

Definition raised_in (t : list event) (op : operation) : Prop :=
  In (Call op true) t.

Definition is_ok {A} (r : result A) : bool :=
  match r with Ok _ => true | Raise _ => false end.

(** The frame that reaches the load job: the one read, with its timestamp
    column converted when it has one. *)
Definition frame_to_load (env : Env) (csv_file : string) : result DataFrame :=
  match read_csv env csv_file with
  | Ok df => if has_column df "timestamp" then to_datetime env df else Ok df
  | Raise e => Raise e
  end.

(** Every step but the dataset check completed, and the dataset exists or
    was created. *)
Definition steps_completed (env : Env)
    (csv_file project_id dataset_id table_id key_path : string) : bool :=
  let full_table_id := project_id ++ "." ++ dataset_id ++ "." ++ table_id in
  path_exists env csv_file &&
  match frame_to_load env csv_file with
  | Ok df =>
      is_ok (from_service_account_json env key_path) &&
      (is_ok (get_dataset env dataset_id)
       || is_ok (create_dataset env (project_id ++ "." ++ dataset_id))) &&
      is_ok (load_table_from_dataframe env df full_table_id) &&
      is_ok (job_result env) &&
      is_ok (get_table env full_table_id)
  | Raise _ => false
  end.


(** An environment in which the load job fails. *)
Definition env_failing_job : Env :=
  mkEnv (fun _ => true)
        (fun _ => Ok (mkDataFrame ["transaction_id"; "amount"] 2 (fun _ => 1%nat)))
        (fun df => Ok df)
        (fun _ => Ok tt)
        (fun _ => Ok tt)
        (fun _ => Ok tt)
        (fun _ _ => Ok tt)
        (Raise (GoogleCloudError "400 Bad request"))
        (fun _ => Ok 0%nat)
        "0.50".

(** An environment without any file. *)
Definition env_no_file : Env :=
  mkEnv (fun _ => false)
        (fun _ => Raise (OtherException "No such file or directory"))
        (fun df => Ok df)
        (fun _ => Ok tt)
        (fun _ => Ok tt)
        (fun _ => Ok tt)
        (fun _ _ => Ok tt)
        (Ok tt)
        (fun _ => Ok 0%nat)
        "0.00".

(** The configuration of the script (lines 142-146). *)
Definition CSV_FILE : string := "synthetic_saas_financial_data.csv".
Definition PROJECT_ID : string := "financial-reporting-pipeline".
Definition DATASET_ID : string := "financial_data".
Definition TABLE_ID : string := "transactions".
Definition KEY_PATH : string := "key.json".

(** The script under [if __name__ == "__main__"] (lines 140-162): the trace
    of the run and the exit status of the process. An exception that left
    [load_data_to_bigquery] would end the process with status 1. *)
Definition main (env : Env) : list event * Z :=
  match load_data_to_bigquery env CSV_FILE PROJECT_ID DATASET_ID TABLE_ID
                              KEY_PATH with
  | (t, Ok true) =>
      ((t ++ [Log INFO "✅ Data loading completed successfully"])%list, 0%Z)
  | (t, Ok false) =>
      ((t ++ [Log ERROR "❌ Data loading failed"])%list, 1%Z)
  | (t, Raise _) => (t, 1%Z)
  end.

(** The position of an operation in the body of the function. *)
Definition rank (op : operation) : nat :=
  match op with
  | PathExists => 0 | ReadCsv => 1 | ToDatetime => 2 | ClientFromJson => 3
  | GetDataset => 4 | CreateDataset => 5 | LoadTable => 6 | JobResult => 7
  | GetTable => 8
  end.

Definition is_error_log (ev : event) : bool :=
  match ev with Log ERROR _ => true | _ => false end.

Definition is_warning_log (ev : event) : bool :=
  match ev with Log WARNING _ => true | _ => false end.

(** The critical columns of lines 60-64. *)
Definition critical_columns : list string :=
  ["transaction_id"; "timestamp"; "customer_id"; "amount"].

(** The warning of lines 63-64 for a column, and the test of line 62. *)
Definition null_warning (df : DataFrame) (col : string) : event :=
  Log WARNING ("Found " ++ str (null_count df col)
               ++ " null values in critical column " ++ col).

Definition has_nulls (df : DataFrame) (col : string) : bool :=
  has_column df col && Nat.ltb 0 (null_count df col).

(** An environment in which only the file written by the generator
    exists. *)
Definition env_generator_output : Env :=
  mkEnv (String.eqb "financial_data.csv")
        (fun _ => Ok (mkDataFrame ["transaction_id"; "timestamp"; "customer_id"; "amount"]
                                  3 (fun _ => 0%nat)))
        (fun df => Ok df)
        (fun _ => Ok tt)
        (fun _ => Ok tt)
        (fun _ => Ok tt)
        (fun _ _ => Ok tt)
        (Ok tt)
        (fun _ => Ok 3%nat)
        "0.75".

End Loader.

(* ================================================================= *)
(** ** The script of the generator and further predicates *)

(** The customer pool of a run (line 48). *)
Definition customer_ids_of (num_rows : Z) : list string :=
  map (fun i => ("CUST_" ++ zfill 6 (str i))%string)
      (seq 1 (Z.to_nat (Z.quot num_rows 10))).

(** The default dates '2023-01-01' and '2025-05-20' as day numbers. *)
Definition default_start_day : Z := 19358.
Definition default_end_day : Z := 20228.

(** [output_file] (line 191) *)
Definition output_file : string := "financial_data.csv".

(** Lines 187-188 of the script: the number of rows is drawn, then the
    dataset is generated with the default dates. The two seeds of lines
    184-185 fix the streams of the world; their values are left open. *)
Definition generator_script : M (list Row) :=
  num_rows <- random_randint 10000 20000 ;;
  generate_synthetic_saas_data num_rows default_start_day default_end_day.

(** The plans that [assign_plan] can give to a customer type. *)
Definition plan_allowed (ctype : CustomerType) (plan : Plan) : bool :=
  match ctype, plan with
  | B2C, (Free | Basic | Pro) => true
  | SMB, (Basic | Pro) => true
  | MidMarket, (Pro | EnterprisePlan) => true
  | EnterpriseCustomer, (EnterprisePlan | Custom) => true
  | _, _ => false
  end.

(** The seconds since midnight of a timestamp. *)
Definition time_of_day (ts : Z) : Z := ts mod seconds_per_day.

(** The exception that the generator raises on an input it cannot serve. *)
Definition generator_error (num_rows : Z) : exn :=
  if num_rows <=? 0 then KeyError else ValueError.

(* ================================================================= *)
(** ** Reasoning about runs *)

Lemma bind_inr A B (m : M A) (f : A -> M B) w b w2 :
  bind m f w = inr (b, w2) ->
  exists a w1, m w = inr (a, w1) /\ f a w1 = inr (b, w2).
Proof.
  unfold bind. destruct (m w) as [e | [a w1]]; [discriminate | eauto].
Qed.

Lemma ret_inr A (a b : A) w w1 : ret a w = inr (b, w1) -> b = a /\ w1 = w.
Proof. unfold ret. intros H. injection H as <- <-. auto. Qed.

(** Splits a successful run along its binds. *)
Ltac run_inv H :=
  lazymatch type of H with
  | bind _ _ _ = inr _ =>
      let a := fresh "a" in
      let w := fresh "w" in
      let H1 := fresh "Hrun" in
      apply bind_inr in H; destruct H as (a & w & H1 & H)
  | ret _ _ = inr _ =>
      apply ret_inr in H; destruct H as [? ?]; subst
  | raise _ _ = inr _ => discriminate H
  end.

Lemma keeps_elim A (m : M A) w a w1 :
  keeps_uuid m -> m w = inr (a, w1) -> uuid_state w1 = uuid_state w.
Proof. intros Hm H. exact (Hm _ _ _ H). Qed.

Lemma keeps_ret A (a : A) : keeps_uuid (ret a).
Proof. intros w b w1 H. run_inv H. reflexivity. Qed.

Lemma keeps_raise A e : keeps_uuid (@raise A e).
Proof. intros w b w1 H. discriminate. Qed.

Lemma keeps_bind A B (m : M A) (f : A -> M B) :
  keeps_uuid m -> (forall a, keeps_uuid (f a)) -> keeps_uuid (bind m f).
Proof.
  intros Hm Hf w b w2 H. run_inv H.
  apply Hm in Hrun. apply Hf in H. congruence.
Qed.

Lemma keeps_np_next : keeps_uuid np_next.
Proof. intros w a w1 H. injection H as <- <-. reflexivity. Qed.

Lemma keeps_py_next : keeps_uuid py_next.
Proof. intros w a w1 H. injection H as <- <-. reflexivity. Qed.

Lemma keeps_get_seed42 : keeps_uuid get_seed42.
Proof. intros w a w1 H. injection H as <- <-. reflexivity. Qed.

Create HintDb keeps.
#[local] Hint Resolve keeps_ret keeps_raise keeps_np_next keeps_py_next
  keeps_get_seed42 : keeps.

Ltac keeps :=
  repeat first
    [ progress auto with keeps
    | apply keeps_bind; [ | intros ? ]
    | match goal with
      | |- keeps_uuid (if ?c then _ else _) => destruct c
      | |- keeps_uuid (match ?x with _ => _ end) => destruct x
      end ].

Lemma keeps_random_random : keeps_uuid random_random.
Proof. unfold random_random. keeps. Qed.

Lemma keeps_random_uniform a b : keeps_uuid (random_uniform a b).
Proof. unfold random_uniform, random_random. keeps. Qed.

Lemma keeps_random_randint a b : keeps_uuid (random_randint a b).
Proof. unfold random_randint. keeps. Qed.

Lemma keeps_np_randint h : keeps_uuid (np_randint h).
Proof. unfold np_randint. keeps. Qed.

Lemma keeps_np_choice A (l : list A) : keeps_uuid (np_choice l).
Proof. unfold np_choice. keeps. Qed.

Lemma keeps_np_choice_p A (l : list A) p : keeps_uuid (np_choice_p l p).
Proof. unfold np_choice_p. keeps. Qed.

Lemma keeps_dict_get V (d : dict V) k : keeps_uuid (dict_get d k).
Proof. unfold dict_get. keeps. Qed.

Lemma keeps_list_get A (l : list A) i : keeps_uuid (list_get l i).
Proof. unfold list_get. keeps. Qed.

Lemma keeps_loc df i : keeps_uuid (loc df i).
Proof. unfold loc. keeps. Qed.

#[local] Hint Resolve keeps_random_random keeps_random_uniform
  keeps_random_randint keeps_np_randint keeps_np_choice keeps_np_choice_p
  keeps_dict_get keeps_list_get keeps_loc : keeps.

Lemma keeps_choose_tx_type i : keeps_uuid (choose_tx_type i).
Proof. unfold choose_tx_type. keeps. Qed.

Lemma keeps_choose_category t : keeps_uuid (choose_category t).
Proof. unfold choose_category. keeps. Qed.

Lemma keeps_base_amount t c p : keeps_uuid (base_amount t c p).
Proof. unfold base_amount. keeps. Qed.

Lemma keeps_seasonal ts t a : keeps_uuid (seasonal ts t a).
Proof. unfold seasonal. keeps. Qed.

#[local] Hint Resolve keeps_choose_tx_type keeps_choose_category
  keeps_base_amount keeps_seasonal : keeps.

Lemma keeps_for_each A B (f : A -> M B) l :
  (forall a, keeps_uuid (f a)) -> keeps_uuid (for_each f l).
Proof. intros Hf. induction l; simpl; keeps. Qed.

Lemma keeps_dict_comprehension A V (key : A -> string) (value : A -> M V) items :
  (forall x, keeps_uuid (value x)) ->
  forall acc, keeps_uuid (dict_comprehension key value items acc).
Proof. intros Hv. induction items; intros acc; simpl; keeps. Qed.

Lemma keeps_retry_pass e idxs : forall df, keeps_uuid (retry_pass e idxs df).
Proof. induction idxs; intros df; simpl; keeps. Qed.

Lemma keeps_sample A n (df : list A) : keeps_uuid (sample n df).
Proof. unfold sample. keeps. Qed.

(* ----------------------------------------------------------------- *)
(** *** Ranges of the draws and the sign of a rounded amount *)

Lemma unit_fraction_nonneg r : (0 <= unit_fraction r)%Q.
Proof.
  unfold unit_fraction, Qle. cbn [Qnum Qden].
  pose proof (N2Z.is_nonneg (r mod 2 ^ 53)). lia.
Qed.

Lemma unit_fraction_lt_1 r : (unit_fraction r < 1)%Q.
Proof.
  unfold unit_fraction, Qlt. cbn [Qnum Qden].
  pose proof (N.mod_upper_bound r (2 ^ 53)%N).
  assert (r mod 2 ^ 53 < 2 ^ 53)%N by (apply H; discriminate).
  change (Z.pos (2 ^ 53)) with (Z.of_N (2 ^ 53)%N). lia.
Qed.

Lemma random_random_range w u w1 :
  random_random w = inr (u, w1) -> (0 <= u /\ u < 1)%Q.
Proof.
  unfold random_random. intros H. repeat run_inv H.
  split; [apply unit_fraction_nonneg | apply unit_fraction_lt_1].
Qed.

Lemma random_uniform_ge a b w x w1 :
  (a <= b)%Q -> random_uniform a b w = inr (x, w1) -> (a <= x)%Q.
Proof.
  unfold random_uniform. intros Hab H. repeat run_inv H.
  apply random_random_range in Hrun. destruct Hrun as [H0 _].
  assert (0 <= (b - a) * a0)%Q by (apply Qmult_le_0_compat; lra).
  lra.
Qed.

Lemma random_randint_range a b w x w1 :
  a <= b -> random_randint a b w = inr (x, w1) -> a <= x <= b.
Proof.
  unfold random_randint. intros Hab H. repeat run_inv H.
  pose proof (Z.mod_pos_bound (Z.of_N a0) (b - a + 1)). lia.
Qed.

Lemma np_randint_range h w x w1 :
  np_randint h w = inr (x, w1) -> 0 <= x < h.
Proof.
  unfold np_randint. destruct (Z.leb_spec h 0) as [Hh | Hh]; intros H; repeat run_inv H.
  apply Z.mod_pos_bound. lia.
Qed.

Lemma round_half_even_floor x :
  round_half_even x = Qfloor x \/ round_half_even x = Qfloor x + 1.
Proof.
  unfold round_half_even.
  destruct (x - inject_Z (Qfloor x) ?= 1 # 2)%Q; auto.
  destruct (Z.even (Qfloor x)); auto.
Qed.

Lemma round_half_even_pos x : (1 <= x)%Q -> 0 < round_half_even x.
Proof.
  intros H. assert (1 <= Qfloor x).
  { change 1 with (Qfloor 1). apply Qfloor_resp_le. exact H. }
  destruct (round_half_even_floor x); lia.
Qed.

Lemma round_half_even_neg x : (x <= -1)%Q -> round_half_even x < 0.
Proof.
  intros H. assert (Hf : Qfloor x <= -1).
  { change (-1) with (Qfloor (-1)). apply Qfloor_resp_le. exact H. }
  unfold round_half_even.
  destruct (Z.eq_dec (Qfloor x) (-1)) as [E | E].
  - assert (Hx : (x == -1)%Q).
    { pose proof (Qfloor_le x) as Hl. rewrite E in Hl. apply Qle_antisym; assumption. }
    rewrite E.
    assert (Hc : (x - inject_Z (-1) ?= 1 # 2)%Q = Lt).
    { rewrite Hx. reflexivity. }
    rewrite Hc. lia.
  - destruct (x - inject_Z (Qfloor x) ?= 1 # 2)%Q; try lia.
    destruct (Z.even (Qfloor x)); lia.
Qed.

Lemma round_half_even_zero x : (x == 0)%Q -> round_half_even x = 0.
Proof.
  intros H. unfold round_half_even.
  assert (Ef : Qfloor x = 0) by (rewrite H; reflexivity).
  rewrite Ef.
  assert (Hc : (x - inject_Z 0 ?= 1 # 2)%Q = Lt) by (rewrite H; reflexivity).
  rewrite Hc. reflexivity.
Qed.

Lemma round2_sign c a : sized c a -> (round2 a ?= 0)%Q = c.
Proof.
  unfold round2. destruct c; simpl; intros H.
  - assert (E : round_half_even (a * 100) = 0).
    { apply round_half_even_zero. rewrite H. reflexivity. }
    rewrite E. reflexivity.
  - assert (L : round_half_even (a * 100) < 0).
    { apply round_half_even_neg. lra. }
    apply (proj1 (Qlt_alt _ _)). unfold Qlt. cbn [Qnum Qden]. lia.
  - assert (L : 0 < round_half_even (a * 100)).
    { apply round_half_even_pos. lra. }
    apply (proj1 (Qgt_alt _ _)). unfold Qlt. cbn [Qnum Qden]. lia.
Qed.

(* ----------------------------------------------------------------- *)
(** *** The loop body *)

Lemma plan_prices_sized p : sized (match p with Free => Eq | _ => Gt end) (plan_prices p).
Proof. destruct p; simpl; unfold Qle, Qeq; simpl; lia. Qed.

Lemma base_amount_sized tx cat plan w a w1 :
  base_amount tx cat plan w = inr (a, w1) ->
  sized (amount_sign tx cat plan) a.
Proof.
  unfold base_amount, amount_sign.
  destruct (is_revenue cat) eqn:Hrev.
  - destruct tx; intros H; repeat run_inv H;
      try (apply random_uniform_ge in H; [ | unfold Qle; simpl; lia ]);
      try (apply random_uniform_ge in Hrun; [ | unfold Qle; simpl; lia ]);
      simpl; try lra.
    + apply plan_prices_sized.
    + destruct plan; simpl; unfold plan_prices; try lra; nra.
  - destruct cat; try discriminate; intros H; repeat run_inv H;
      (apply random_uniform_ge in Hrun; [ | unfold Qle; simpl; lia ]);
      simpl; lra.
Qed.

Lemma sized_scale c a m : sized c a -> (1 <= m)%Q -> sized c (a * m).
Proof.
  destruct c; simpl; intros Ha Hm.
  - rewrite Ha. lra.
  - nra.
  - nra.
Qed.

Lemma seasonal_sized c ts tx a w a' w1 :
  seasonal ts tx a w = inr (a', w1) -> sized c a -> sized c a'.
Proof.
  unfold seasonal. intros H Ha. run_inv H.
  assert (Ha0 : sized c a0).
  { destruct ((25 <=? day_of ts) && is_subscription tx); repeat run_inv Hrun; auto.
    apply sized_scale; auto.
    apply random_uniform_ge in Hrun0; [ lra | unfold Qle; simpl; lia ]. }
  destruct (month_of ts =? 12); repeat run_inv H; auto.
  apply sized_scale; auto.
  apply random_uniform_ge in Hrun0; [ lra | unfold Qle; simpl; lia ].
Qed.

Lemma dict_get_inr V (d : dict V) k w v w1 :
  dict_get d k w = inr (v, w1) -> dict_find d k = Some v /\ w1 = w.
Proof.
  unfold dict_get. destruct (dict_find d k); intros H; run_inv H. auto.
Qed.

Lemma list_get_inr A (l : list A) i w x w1 :
  list_get l i w = inr (x, w1) -> nth_error l i = Some x /\ w1 = w.
Proof.
  unfold list_get. destruct (nth_error l i); intros H; run_inv H. auto.
Qed.

Lemma uuid4_hex12_inr w h w1 :
  uuid4_hex12 w = inr (h, w1) ->
  h = uuid4_hex12_of (uuid_bits w (uuid_used w)) /\
  uuid_bits w1 = uuid_bits w /\ uuid_used w1 = S (uuid_used w).
Proof.
  unfold uuid4_hex12. intros H. run_inv H. run_inv H.
  unfold uuid_next in Hrun. injection Hrun as <- <-. auto.
Qed.

(** Records that a step of a run left the UUID source alone. *)
Ltac note_keeps H :=
  match type of H with
  | ?m ?w = inr (_, ?w1) =>
      let K := fresh "K" in
      assert (K : uuid_state w1 = uuid_state w)
        by (let Km := fresh in
            assert (Km : keeps_uuid m) by auto with keeps;
            exact (Km _ _ _ H))
  end.

Lemma choose_category_revenue tx w c w1 :
  choose_category tx w = inr (c, w1) ->
  is_revenue c = match tx with Downgrade => false | _ => true end.
Proof.
  destruct tx; simpl; intros H; try (run_inv H; reflexivity).
  unfold np_choice in H. repeat run_inv H.
  remember (N.to_nat _) as j. clear.
  do 6 (destruct j as [ | j]; [ reflexivity | ]). destruct j; reflexivity.
Qed.

Lemma generate_row_inv ids tm pm tss i w r w1 :
  generate_row ids tm pm tss i w = inr (r, w1) ->
  dict_find tm (customer_id r) = Some (customer_type r) /\
  dict_find pm (customer_id r) = Some (subscription_plan r) /\
  nth_error tss i = Some (timestamp r) /\
  (amount r ?= 0)%Q
    = amount_sign (transaction_type r) (category r) (subscription_plan r) /\
  is_revenue (category r)
    = match transaction_type r with Downgrade => false | _ => true end /\
  transaction_id r
    = ((if is_revenue (category r) then "REV_" else "EXP_")
       ++ uuid4_hex12_of (uuid_bits w (uuid_used w)))%string /\
  uuid_bits w1 = uuid_bits w /\ uuid_used w1 = S (uuid_used w).
Proof.
  unfold generate_row. intros H.
  apply bind_inr in H as (cid & wa & Ha & H). note_keeps Ha.
  apply bind_inr in H as (ctype & wb & Hb & H). apply dict_get_inr in Hb as [Htm ->].
  apply bind_inr in H as (plan & wc & Hc & H). apply dict_get_inr in Hc as [Hpm ->].
  apply bind_inr in H as (tx & wd & Hd & H). note_keeps Hd.
  apply bind_inr in H as (cat & we & He & H). note_keeps He.
  apply bind_inr in H as (amt & wf & Hf & H). note_keeps Hf.
  apply bind_inr in H as (reg & wg & Hg & H). note_keeps Hg.
  apply bind_inr in H as (status & wh & Hh & H). note_keeps Hh.
  apply bind_inr in H as (ts & wi & Hi & H). apply list_get_inr in Hi as [Hts ->].
  apply bind_inr in H as (amt' & wj & Hj & H). note_keeps Hj.
  apply bind_inr in H as (hex & wk & Hk & H).
  apply uuid4_hex12_inr in Hk as (-> & Hbits & Hused).
  apply ret_inr in H as [-> ->].
  cbn [customer_id customer_type subscription_plan timestamp amount
       transaction_type category transaction_id].
  assert (Kall : uuid_state wj = uuid_state w) by congruence.
  unfold uuid_state in Kall. injection Kall as Kb Ku.
  repeat split; auto.
  - apply round2_sign. eapply seasonal_sized; [ eassumption | ].
    eapply base_amount_sized; eassumption.
  - eapply choose_category_revenue; eassumption.
  - rewrite Kb, Ku. reflexivity.
  - congruence.
  - congruence.
Qed.

(* ----------------------------------------------------------------- *)
(** *** Loops *)

Lemma for_each_Forall2 A B (P : A -> B -> Prop) (f : A -> M B) l :
  (forall a w b w1, In a l -> f a w = inr (b, w1) -> P a b) ->
  forall w bs w1, for_each f l w = inr (bs, w1) -> Forall2 P l bs.
Proof.
  induction l as [ | a l IH]; simpl; intros Hf w bs w1 H.
  - run_inv H. constructor.
  - apply bind_inr in H as (b & wa & Hb & H).
    apply bind_inr in H as (bs' & wb & Hbs & H).
    apply ret_inr in H as [-> ->].
    constructor; [ eapply Hf; eauto | eapply IH; eauto ].
Qed.

Lemma for_each_length A B (f : A -> M B) l w bs w1 :
  for_each f l w = inr (bs, w1) -> List.length bs = List.length l.
Proof.
  intros H. symmetry. eapply Forall2_length.
  eapply for_each_Forall2 with (P := fun _ _ => True); eauto.
Qed.

Lemma for_each_Forall A B (P : B -> Prop) (f : A -> M B) l w bs w1 :
  (forall a w b w1, In a l -> f a w = inr (b, w1) -> P b) ->
  for_each f l w = inr (bs, w1) -> Forall P bs.
Proof.
  intros Hf H.
  assert (F2 : Forall2 (fun _ b => P b) l bs).
  { eapply for_each_Forall2; [ | exact H ]. exact Hf. }
  clear - F2. induction F2; constructor; auto.
Qed.

Lemma for_each_ok A B (f : A -> M B) l :
  (forall a w, In a l -> exists b w1, f a w = inr (b, w1)) ->
  forall w, exists bs w1, for_each f l w = inr (bs, w1).
Proof.
  induction l as [ | a l IH]; simpl; intros Hf w.
  - eexists _, _. reflexivity.
  - destruct (Hf a w (or_introl eq_refl)) as (b & wa & Hb).
    destruct (IH (fun x w' Hx => Hf x w' (or_intror Hx)) wa) as (bs & wb & Hbs).
    exists (b :: bs), wb.
    unfold bind. rewrite Hb, Hbs. reflexivity.
Qed.

(** A loop whose body draws exactly one UUID per round reads the UUID
    stream in order. *)
Lemma for_each_uuid A B C (f : A -> M B) (g : B -> C) (h : N -> C) l :
  (forall a w b w1, f a w = inr (b, w1) ->
     g b = h (uuid_bits w (uuid_used w)) /\
     uuid_bits w1 = uuid_bits w /\ uuid_used w1 = S (uuid_used w)) ->
  forall w bs w1, for_each f l w = inr (bs, w1) ->
    map g bs
      = map (fun k => h (uuid_bits w (uuid_used w + k)%nat))
            (seq 0 (List.length l)) /\
    uuid_bits w1 = uuid_bits w /\
    uuid_used w1 = (uuid_used w + List.length l)%nat.
Proof.
  intros Hf. induction l as [ | a l IH]; simpl; intros w bs w1 H.
  - run_inv H. repeat split; auto.
  - apply bind_inr in H as (b & wa & Hb & H).
    apply bind_inr in H as (bs' & wb & Hbs & H).
    apply ret_inr in H as [-> ->].
    apply Hf in Hb as (Hg & Hbits & Hused).
    apply IH in Hbs as (Hmap & Hbits' & Hused').
    repeat split.
    + simpl. rewrite Nat.add_0_r, Hg. f_equal.
      rewrite Hmap, <- seq_shift, map_map.
      apply map_ext. intros k. rewrite Hbits, Hused. f_equal. f_equal. lia.
    + congruence.
    + lia.
Qed.

(* ----------------------------------------------------------------- *)
(** *** Sorting *)

Lemma insert_by_perm A (key : A -> Z) x l : Permutation (insert_by key x l) (x :: l).
Proof.
  induction l as [ | y l IH]; simpl.
  - reflexivity.
  - destruct (key x <=? key y).
    + reflexivity.
    + rewrite IH. apply perm_swap.
Qed.

Lemma sort_by_perm A (key : A -> Z) l : Permutation (sort_by key l) l.
Proof.
  induction l as [ | x l IH]; simpl.
  - reflexivity.
  - rewrite insert_by_perm. constructor. exact IH.
Qed.

Lemma sort_by_length A (key : A -> Z) l :
  List.length (sort_by key l) = List.length l.
Proof. apply Permutation_length, sort_by_perm. Qed.

Lemma sort_by_Forall A (key : A -> Z) (P : A -> Prop) l :
  Forall P l -> Forall P (sort_by key l).
Proof.
  intros H. eapply Permutation_Forall; [ | exact H ].
  symmetry. apply sort_by_perm.
Qed.

Lemma insert_by_sorted A (key : A -> Z) x l :
  Sorted (fun a b => key a <= key b) l ->
  Sorted (fun a b => key a <= key b) (insert_by key x l).
Proof.
  induction l as [ | y l IH]; simpl; intros Hs.
  - repeat constructor.
  - destruct (Z.leb_spec (key x) (key y)) as [Hle | Hgt].
    + constructor; [ exact Hs | constructor; exact Hle ].
    + inversion Hs as [ | ? ? Hs' Hhd]; subst.
      constructor; [ apply IH; exact Hs' | ].
      destruct l as [ | z l]; simpl.
      * constructor. lia.
      * destruct (Z.leb_spec (key x) (key z)).
        -- constructor. lia.
        -- inversion Hhd; subst. constructor. assumption.
Qed.

Lemma sort_by_sorted A (key : A -> Z) l :
  Sorted (fun a b => key a <= key b) (sort_by key l).
Proof.
  induction l as [ | x l IH]; simpl.
  - constructor.
  - apply insert_by_sorted, IH.
Qed.

(* ----------------------------------------------------------------- *)
(** *** Sampling without replacement *)

Lemma remove_nth_perm A (j : nat) (l : list A) d :
  (j < List.length l)%nat -> Permutation (nth j l d :: remove_nth j l) l.
Proof.
  revert j. induction l as [ | x l IH]; simpl; intros j Hj.
  - lia.
  - destruct j as [ | j].
    + reflexivity.
    + transitivity (x :: nth j l d :: remove_nth j l).
      * apply perm_swap.
      * constructor. apply IH. lia.
Qed.

Lemma draw_without_replacement_perm A k : forall (pool : list A) src pos,
  exists rest, Permutation (draw_without_replacement k pool src pos ++ rest) pool.
Proof.
  induction k as [ | k IH]; simpl; intros pool src pos.
  - exists pool. reflexivity.
  - destruct pool as [ | x pool'] eqn:E.
    + exists []. reflexivity.
    + rewrite <- E.
      set (j := N.to_nat (src pos mod N.of_nat (List.length pool))).
      assert (Hj : (j < List.length pool)%nat).
      { subst j.
        assert (Hn : N.of_nat (List.length pool) <> 0%N) by (subst pool; simpl; lia).
        pose proof (N.mod_upper_bound (src pos) _ Hn). lia. }
      destruct (IH (remove_nth j pool) src (S pos)) as (rest & Hrest).
      exists rest. simpl. rewrite Hrest. apply remove_nth_perm. exact Hj.
Qed.

Lemma remove_nth_length A (j : nat) (l : list A) :
  (j < List.length l)%nat -> List.length (remove_nth j l) = pred (List.length l).
Proof.
  revert j. induction l as [ | x l IH]; simpl; intros j Hj.
  - lia.
  - destruct j as [ | j]; [ reflexivity | ].
    simpl. rewrite IH by lia. lia.
Qed.

Lemma draw_without_replacement_length A k : forall (pool : list A) src pos,
  (k <= List.length pool)%nat ->
  List.length (draw_without_replacement k pool src pos) = k.
Proof.
  induction k as [ | k IH]; simpl; intros pool src pos Hk.
  - reflexivity.
  - destruct pool as [ | x pool'] eqn:E.
    + simpl in Hk. lia.
    + rewrite <- E in *.
      set (j := N.to_nat (src pos mod N.of_nat (List.length pool))).
      assert (Hj : (j < List.length pool)%nat).
      { subst j.
        assert (Hn : N.of_nat (List.length pool) <> 0%N) by (subst pool; simpl; lia).
        pose proof (N.mod_upper_bound (src pos) _ Hn). lia. }
      simpl. f_equal. apply IH. rewrite remove_nth_length by exact Hj. lia.
Qed.

Lemma sample_inr A n (df : list A) w s w1 :
  sample n df w = inr (s, w1) ->
  0 <= n /\ List.length s = Z.to_nat n /\
  exists rest, Permutation (s ++ rest) df.
Proof.
  unfold sample.
  destruct (Z.ltb_spec n 0) as [Hn | Hn]; [ discriminate | ].
  destruct (Z.ltb_spec (Z.of_nat (List.length df)) n) as [Hl | Hl]; [ discriminate | ].
  intros H. apply bind_inr in H as (src & wa & _ & H).
  apply ret_inr in H as [-> ->].
  split; [ exact Hn | split ].
  - apply draw_without_replacement_length. lia.
  - apply draw_without_replacement_perm.
Qed.

(* ----------------------------------------------------------------- *)
(** *** The retry pass *)

Lemma failed_indices_from_spec df : forall from idx,
  In idx (failed_indices_from from df) ->
  (from <= idx)%nat /\
  exists r, nth_error df (idx - from) = Some r /\ payment_status r = Failed.
Proof.
  induction df as [ | r df IH]; simpl; intros from idx Hin.
  - contradiction.
  - assert (Hrest : In idx (failed_indices_from (S from) df) ->
                    (from <= idx)%nat /\
                    exists r', nth_error (r :: df) (idx - from) = Some r' /\
                               payment_status r' = Failed).
    { intros H. apply IH in H as (Hle & r' & Hn & Hf).
      split; [ lia | ]. exists r'. split; [ | exact Hf ].
      replace (idx - from)%nat with (S (idx - S from)) by lia. exact Hn. }
    destruct (is_failed (payment_status r)) eqn:E; [ | auto ].
    destruct Hin as [<- | Hin]; [ | auto ].
    split; [ lia | ]. exists r. rewrite Nat.sub_diag. split; [ reflexivity | ].
    destruct (payment_status r); try discriminate. reflexivity.
Qed.

Lemma failed_indices_from_NoDup df : forall from,
  NoDup (failed_indices_from from df).
Proof.
  induction df as [ | r df IH]; simpl; intros from.
  - constructor.
  - destruct (is_failed (payment_status r)); [ | apply IH ].
    constructor; [ | apply IH ].
    intros Hin. apply failed_indices_from_spec in Hin. lia.
Qed.

Lemma failed_indices_from_bound df idx :
  In idx (failed_indices_from 0 df) -> (idx < List.length df)%nat.
Proof.
  intros H. apply failed_indices_from_spec in H as (_ & r & Hn & _).
  rewrite Nat.sub_0_r in Hn. apply nth_error_Some. congruence.
Qed.

Lemma loc_inr df idx w r w1 :
  loc df idx w = inr (r, w1) -> nth_error df idx = Some r /\ w1 = w.
Proof.
  unfold loc. destruct (nth_error df idx); intros H; run_inv H. auto.
Qed.

Lemma retry_pass_inv end_date df0 idxs : forall acc w df1 w1,
  Forall (fun i => (i < List.length df0)%nat) idxs ->
  retry_pass end_date idxs (df0 ++ acc) w = inr (df1, w1) ->
  exists extra, df1 = df0 ++ acc ++ extra /\ retries end_date df0 idxs extra.
Proof.
  induction idxs as [ | idx idxs IH]; simpl; intros acc w df1 w1 Hb H.
  - run_inv H. exists []. rewrite app_nil_r. split; [ reflexivity | constructor ].
  - inversion Hb as [ | ? ? Hidx Hb']; subst.
    apply bind_inr in H as (u & wa & Hu & H).
    destruct (Qltb u (7 # 10)).
    + apply bind_inr in H as (failed_row & wb & Hloc & H).
      apply loc_inr in Hloc as [Hnth ->].
      rewrite nth_error_app1 in Hnth by exact Hidx.
      apply bind_inr in H as (d & wc & Hd & H).
      apply random_randint_range in Hd; [ | lia ].
      destruct (Z.leb_spec (timestamp failed_row + timedelta_days d) end_date)
        as [Hle | Hgt].
      * rewrite <- app_assoc in H.
        apply IH in H as (extra & -> & Hex); [ | exact Hb' ].
        exists (retry_row failed_row (timestamp failed_row + timedelta_days d)
                  :: extra).
        split; [ rewrite <- app_assoc; reflexivity | ].
        econstructor; eassumption.
      * apply IH in H as (extra & -> & Hex); [ | exact Hb' ].
        exists extra. split; [ reflexivity | constructor; exact Hex ].
    + apply IH in H as (extra & -> & Hex); [ | exact Hb' ].
      exists extra. split; [ reflexivity | constructor; exact Hex ].
Qed.

Lemma retry_pass_ok end_date idxs : forall df w,
  Forall (fun i => (i < List.length df)%nat) idxs ->
  exists df1 w1, retry_pass end_date idxs df w = inr (df1, w1).
Proof.
  induction idxs as [ | idx idxs IH]; simpl; intros df w Hb.
  - eexists _, _. reflexivity.
  - inversion Hb as [ | ? ? Hidx Hb']; subst.
    unfold bind at 1. unfold random_random at 1. unfold bind at 1.
    cbn [py_next ret].
    assert (Hgrow : forall r,
      Forall (fun i => (i < List.length (df ++ [r]))%nat) idxs).
    { intros r. eapply Forall_impl; [ | exact Hb' ].
      intros i Hi. cbv beta in Hi. rewrite length_app. simpl. lia. }
    destruct (Qltb _ (7 # 10)); [ | apply IH; exact Hb' ].
    unfold bind at 1, loc.
    destruct (nth_error df idx) as [r | ] eqn:E;
      [ | apply nth_error_None in E; lia ].
    cbn [ret]. unfold bind at 1, random_randint. unfold bind at 1.
    cbn [py_next ret].
    match goal with
    | |- context [if ?c then _ else _] => destruct c
    end; apply IH; auto.
Qed.

Lemma retries_orig end_date df0 idxs extra :
  retries end_date df0 idxs extra ->
  forall r, In r extra ->
  exists idx orig d, In idx idxs /\ nth_error df0 idx = Some orig /\
    1 <= d <= 7 /\ timestamp orig + timedelta_days d <= end_date /\
    r = retry_row orig (timestamp orig + timedelta_days d).
Proof.
  induction 1 as [ | idx idxs extra _ IH | idx idxs extra orig d Hn Hd Hle _ IH];
    simpl; intros r Hin.
  - contradiction.
  - apply IH in Hin as (i & o & d & Hi & Hrest). exists i, o, d. auto.
  - destruct Hin as [<- | Hin].
    + exists idx, orig, d. auto 10.
    + apply IH in Hin as (i & o & d' & Hi & Hrest). exists i, o, d'. auto.
Qed.

(* ----------------------------------------------------------------- *)
(** *** The whole generator *)

Lemma digits_length b n : forall v, String.length (digits b n v) = n.
Proof.
  assert (Happ : forall s t,
    String.length (s ++ t)%string = (String.length s + String.length t)%nat).
  { induction s; simpl; intros; [ reflexivity | rewrite IHs; reflexivity ]. }
  induction n as [ | n IH]; simpl; intros v.
  - reflexivity.
  - rewrite Happ, IH. simpl. lia.
Qed.

Lemma generate_row_ok_inv ids tm pm tss i w r w1 :
  generate_row ids tm pm tss i w = inr (r, w1) -> row_ok tm pm tss r.
Proof.
  intros H. apply generate_row_inv in H
    as (Htm & Hpm & Hts & Hsign & Hrev & Hid & _).
  repeat split; auto.
  - eapply nth_error_In; eassumption.
  - exists (uuid4_hex12_of (uuid_bits w (uuid_used w))).
    split; [ apply digits_length | exact Hid ].
Qed.

Lemma generate_row_uuid ids tm pm tss i w r w1 :
  generate_row ids tm pm tss i w = inr (r, w1) ->
  id_suffix r = uuid4_hex12_of (uuid_bits w (uuid_used w)) /\
  uuid_bits w1 = uuid_bits w /\ uuid_used w1 = S (uuid_used w).
Proof.
  intros H. apply generate_row_inv in H
    as (_ & _ & _ & _ & _ & Hid & Hb & Hu).
  repeat split; auto.
  unfold id_suffix. rewrite Hid.
  destruct (is_revenue (category r)); reflexivity.
Qed.

Lemma timestamps_in_range start_day end_day dates tss w w1 wa wb n :
  for_each (fun _ : nat => d <- np_randint (end_day - start_day) ;;
                     ret (start_day * seconds_per_day + timedelta_days d))
           (range n) w = inr (dates, wa) ->
  for_each (fun date => h <- random_randint 8 20 ;;
                        m <- random_randint 0 59 ;;
                        s <- random_randint 0 59 ;;
                        ret (date + timedelta_hms h m s))
           (sort_by (fun d => d) dates) wb = inr (tss, w1) ->
  Forall (fun t => start_day * seconds_per_day <= t < end_day * seconds_per_day)
         tss.
Proof.
  intros Hd Ht.
  assert (Fd : Forall (fun t => start_day * seconds_per_day <= t
                                <= (end_day - 1) * seconds_per_day) dates).
  { eapply for_each_Forall; [ | exact Hd ].
    intros k w2 t w3 _ H. cbv beta in H.
    apply bind_inr in H as (d & w4 & Hr & H). run_inv H.
    apply np_randint_range in Hr.
    unfold timedelta_days, seconds_per_day. lia. }
  apply (sort_by_Forall _ (fun d => d)) in Fd.
  assert (F2 : Forall2 (fun date t => date + 28800 <= t <= date + 75599)
                       (sort_by (fun d => d) dates) tss).
  { eapply for_each_Forall2; [ | exact Ht ].
    intros date w2 t w3 _ H. cbv beta in H.
    apply bind_inr in H as (h & w4 & Hh & H).
    apply bind_inr in H as (m & w5 & Hm & H).
    apply bind_inr in H as (s & w6 & Hs & H).
    run_inv H.
    apply random_randint_range in Hh; [ | lia ].
    apply random_randint_range in Hm; [ | lia ].
    apply random_randint_range in Hs; [ | lia ].
    unfold timedelta_hms. lia. }
  clear - Fd F2. induction F2 as [ | date t ds ts Hdt _ IH].
  - constructor.
  - inversion Fd; subst. constructor; [ | apply IH; assumption ].
    unfold seconds_per_day in *. lia.
Qed.

Lemma generate_inv num_rows start_day end_day w df w1 :
  generate_synthetic_saas_data num_rows start_day end_day w = inr (df, w1) ->
  exists tm pm tss data extra rest,
    Forall (fun t => start_day * seconds_per_day <= t
                     < end_day * seconds_per_day) tss /\
    Forall (row_ok tm pm tss) data /\
    map id_suffix data = uuids_drawn num_rows w /\
    List.length data = Z.to_nat num_rows /\
    retries (end_day * seconds_per_day) data (failed_indices_from 0 data) extra /\
    Permutation (df ++ rest) (data ++ extra) /\
    Sorted (fun a b => timestamp a <= timestamp b) df /\
    Z.of_nat (List.length df) = num_rows.
Proof.
  unfold generate_synthetic_saas_data. intros H.
  apply bind_inr in H as (tm & wa & Htm & H).
  assert (Ka : uuid_state wa = uuid_state w).
  { eapply keeps_elim; [ | exact Htm ].
    apply keeps_dict_comprehension. intros; auto with keeps. }
  apply bind_inr in H as (pm & wb & Hpm & H).
  assert (Kb : uuid_state wb = uuid_state wa).
  { eapply keeps_elim; [ | exact Hpm ].
    apply keeps_dict_comprehension.
    intros x; unfold assign_plan; destruct (snd x); auto with keeps. }
  apply bind_inr in H as (dates & wc & Hdates & H).
  assert (Kc : uuid_state wc = uuid_state wb).
  { eapply keeps_elim; [ | exact Hdates ]. apply keeps_for_each. intros; keeps. }
  apply bind_inr in H as (tss & wd & Htss & H).
  assert (Kd : uuid_state wd = uuid_state wc).
  { eapply keeps_elim; [ | exact Htss ]. apply keeps_for_each. intros; keeps. }
  apply bind_inr in H as (data & we & Hdata & H).
  apply bind_inr in H as (idxs & wf & Hidxs & H).
  apply bind_inr in H as (df1 & wg & Hretry & H).
  assert (Kw : uuid_state wd = uuid_state w) by congruence.
  unfold uuid_state in Kw. injection Kw as Kbits Kused.
  assert (Hlen : List.length data = Z.to_nat num_rows).
  { apply for_each_length in Hdata. unfold range in Hdata.
    rewrite length_seq in Hdata. exact Hdata. }
  assert (Hne : data <> [] /\ idxs = failed_indices_from 0 data).
  { destruct data; [ discriminate Hidxs | ].
    apply ret_inr in Hidxs as [-> _]. split; [ discriminate | reflexivity ]. }
  destruct Hne as [Hne ->].
  assert (Hpos : 0 < num_rows).
  { destruct data; [ congruence | ]. simpl in Hlen. lia. }
  rewrite <- (app_nil_r data) in Hretry at 2.
  apply retry_pass_inv in Hretry as (extra & -> & Hex);
    [ | apply Forall_forall; intros i Hi; apply failed_indices_from_bound; exact Hi ].
  simpl in H.
  exists tm, pm, tss, data, extra.
  assert (Hrows : Forall (row_ok tm pm tss) data).
  { eapply for_each_Forall; [ | exact Hdata ].
    intros i w2 r w3 _ Hr. eapply generate_row_ok_inv; exact Hr. }
  assert (Huuid : map id_suffix data = uuids_drawn num_rows w).
  { eapply for_each_uuid with (g := id_suffix) (h := uuid4_hex12_of) in Hdata
      as (Hmap & _ & _).
    - rewrite Hmap. unfold uuids_drawn, range. rewrite length_seq.
      apply map_ext. intros k. rewrite Kbits, Kused. reflexivity.
    - intros i w2 r w3 Hr. eapply generate_row_uuid; exact Hr. }
  assert (Hrange := timestamps_in_range _ _ _ _ _ _ _ _ _ Hdates Htss).
  set (all := data ++ extra) in *.
  destruct (Z.ltb_spec num_rows (Z.of_nat (List.length (sort_by timestamp all))))
    as [Hlt | Hge].
  - apply bind_inr in H as (s & wh & Hs & H). apply ret_inr in H as [-> ->].
    apply sample_inr in Hs as (_ & Hsl & rest & Hperm).
    exists rest. repeat split; auto.
    + rewrite (sort_by_perm _ timestamp s), Hperm. apply sort_by_perm.
    + apply sort_by_sorted.
    + rewrite sort_by_length, Hsl. lia.
  - apply ret_inr in H as [-> ->].
    exists []. rewrite app_nil_r. repeat split; auto.
    + apply sort_by_perm.
    + apply sort_by_sorted.
    + rewrite sort_by_length in *. subst all. rewrite length_app in *. lia.
Qed.

(* ----------------------------------------------------------------- *)
(** *** The generator returns *)

Lemma returns_ret A (a : A) : returns (ret a).
Proof. intros w. exists a, w. auto. Qed.

Lemma returns_in_bind A B (P : A -> Prop) (Q : B -> Prop) (m : M A) (f : A -> M B) :
  returns_in P m -> (forall a, P a -> returns_in Q (f a)) ->
  returns_in Q (bind m f).
Proof.
  intros Hm Hf w. destruct (Hm w) as (a & wa & Ha & HP).
  destruct (Hf a HP wa) as (b & wb & Hb & HQ).
  exists b, wb. unfold bind. rewrite Ha. auto.
Qed.

Lemma returns_bind A B (m : M A) (f : A -> M B) :
  returns m -> (forall a, returns (f a)) -> returns (bind m f).
Proof.
  intros Hm Hf. eapply returns_in_bind; [ exact Hm | ]. intros a _. apply Hf.
Qed.

Lemma returns_weaken A (P : A -> Prop) (m : M A) : returns_in P m -> returns m.
Proof.
  intros Hm w. destruct (Hm w) as (a & wa & Ha & _). exists a, wa. auto.
Qed.

Lemma returns_np_next : returns np_next.
Proof. intros w. eexists _, _. split; [ reflexivity | exact I ]. Qed.

Lemma returns_py_next : returns py_next.
Proof. intros w. eexists _, _. split; [ reflexivity | exact I ]. Qed.

Lemma returns_uuid_next : returns uuid_next.
Proof. intros w. eexists _, _. split; [ reflexivity | exact I ]. Qed.

Lemma returns_get_seed42 : returns get_seed42.
Proof. intros w. eexists _, _. split; [ reflexivity | exact I ]. Qed.

Create HintDb returns.
#[local] Hint Resolve returns_ret returns_np_next returns_py_next
  returns_uuid_next returns_get_seed42 : returns.

Ltac returns :=
  repeat first
    [ progress auto with returns
    | apply returns_bind; [ | intros ? ]
    | match goal with
      | |- returns (if ?c then _ else _) => destruct c
      | |- returns (match ?x with _ => _ end) => destruct x
      end ].

Lemma returns_random_random : returns random_random.
Proof. unfold random_random. returns. Qed.

Lemma returns_random_uniform a b : returns (random_uniform a b).
Proof. unfold random_uniform, random_random. returns. Qed.

Lemma returns_random_randint a b : returns (random_randint a b).
Proof. unfold random_randint. returns. Qed.

Lemma returns_np_randint h : 0 < h -> returns (np_randint h).
Proof.
  intros Hh. unfold np_randint.
  destruct (Z.leb_spec h 0); [ lia | returns ].
Qed.

Lemma returns_np_choice A (l : list A) :
  l <> [] -> returns_in (fun x => In x l) (np_choice l).
Proof.
  intros Hl w. unfold np_choice. destruct l as [ | x l']; [ congruence | ].
  eexists _, _. split; [ reflexivity | ].
  apply nth_In.
  assert (Hn : N.of_nat (List.length (x :: l')) <> 0%N) by (simpl; lia).
  pose proof (N.mod_upper_bound (np_random w (np_used w)) _ Hn). lia.
Qed.

Lemma returns_np_choice_p A (l : list A) p :
  l <> [] -> List.length l = List.length p -> Qeq_bool (Qsum p) 1 = true ->
  returns (np_choice_p l p).
Proof.
  intros Hl Hlen Hsum. unfold np_choice_p.
  destruct l as [ | x l']; [ congruence | ].
  rewrite Hlen, Nat.eqb_refl, Hsum. simpl. returns.
Qed.

Lemma returns_assign_plan ctype : returns (assign_plan ctype).
Proof.
  destruct ctype; cbn [assign_plan]; apply returns_np_choice_p;
    solve [ discriminate | reflexivity ].
Qed.

Lemma returns_choose_tx_type i : returns (choose_tx_type i).
Proof.
  unfold choose_tx_type. pose proof returns_random_random.
  apply returns_bind.
  - destruct (Nat.ltb 0 i); returns.
  - intros [ | ]; [ | returns ].
    eapply returns_weaken, returns_np_choice. discriminate.
Qed.

Lemma returns_choose_category tx : returns (choose_category tx).
Proof.
  destruct tx; cbn [choose_category]; returns.
Qed.

Lemma returns_base_amount tx cat plan : returns (base_amount tx cat plan).
Proof.
  pose proof returns_random_uniform. unfold base_amount. returns.
Qed.

Lemma returns_seasonal ts tx a : returns (seasonal ts tx a).
Proof.
  pose proof returns_random_uniform. unfold seasonal. returns.
Qed.

Lemma returns_uuid4_hex12 : returns uuid4_hex12.
Proof. unfold uuid4_hex12. returns. Qed.

Lemma returns_dict_get V (d : dict V) k :
  dict_find d k <> None -> returns (dict_get d k).
Proof.
  intros H. unfold dict_get. destruct (dict_find d k); [ returns | congruence ].
Qed.

Lemma returns_list_get A (l : list A) i :
  (i < List.length l)%nat -> returns (list_get l i).
Proof.
  intros H. unfold list_get.
  destruct (nth_error l i) eqn:E; [ returns | ].
  apply nth_error_None in E. lia.
Qed.

Lemma returns_generate_row ids tm pm tss i :
  ids <> [] ->
  (forall cid, In cid ids -> dict_find tm cid <> None /\ dict_find pm cid <> None) ->
  (i < List.length tss)%nat ->
  returns (generate_row ids tm pm tss i).
Proof.
  intros Hids Hmaps Hi. unfold generate_row.
  eapply returns_in_bind; [ apply returns_np_choice; exact Hids | ].
  intros cid Hcid. destruct (Hmaps cid Hcid) as [Htm Hpm].
  apply returns_bind; [ apply returns_dict_get; exact Htm | intros ctype ].
  apply returns_bind; [ apply returns_dict_get; exact Hpm | intros plan ].
  apply returns_bind; [ apply returns_choose_tx_type | intros tx ].
  apply returns_bind; [ apply returns_choose_category | intros cat ].
  apply returns_bind; [ apply returns_base_amount | intros amt ].
  apply returns_bind;
    [ apply returns_np_choice_p; solve [ discriminate | reflexivity ] | intros reg ].
  apply returns_bind;
    [ apply returns_np_choice_p; solve [ discriminate | reflexivity ] | intros st ].
  apply returns_bind; [ apply returns_list_get; exact Hi | intros ts ].
  apply returns_bind; [ apply returns_seasonal | intros amt' ].
  apply returns_bind; [ apply returns_uuid4_hex12 | intros hex ].
  apply returns_ret.
Qed.

Lemma dict_find_set_same V (d : dict V) k v : dict_find (dict_set d k v) k = Some v.
Proof.
  induction d as [ | [k' v'] d IH]; simpl.
  - rewrite String.eqb_refl. reflexivity.
  - destruct (String.eqb k' k) eqn:E; simpl.
    + rewrite String.eqb_refl. reflexivity.
    + rewrite E. exact IH.
Qed.

Lemma dict_find_set_keeps V (d : dict V) k v k' :
  dict_find d k' <> None -> dict_find (dict_set d k v) k' <> None.
Proof.
  induction d as [ | [k0 v0] d IH]; simpl; intros H.
  - congruence.
  - destruct (String.eqb k0 k) eqn:E; simpl.
    + apply String.eqb_eq in E. subst k0.
      destruct (String.eqb k k'); [ discriminate | exact H ].
    + destruct (String.eqb k0 k'); [ discriminate | apply IH; exact H ].
Qed.

Lemma dict_find_In V (d : dict V) k :
  dict_find d k <> None -> In k (map fst d).
Proof.
  induction d as [ | [k0 v0] d IH]; simpl; intros H.
  - congruence.
  - destruct (String.eqb k0 k) eqn:E.
    + left. apply String.eqb_eq. exact E.
    + right. apply IH. exact H.
Qed.

Lemma dict_comprehension_keys A V (key : A -> string) (value : A -> M V) items :
  forall acc w d w1,
  dict_comprehension key value items acc w = inr (d, w1) ->
  forall k, In k (map key items) \/ dict_find acc k <> None ->
            dict_find d k <> None.
Proof.
  induction items as [ | x items IH]; simpl; intros acc w d w1 H k Hk.
  - run_inv H. destruct Hk as [[] | Hk]. exact Hk.
  - apply bind_inr in H as (v & wa & _ & H).
    eapply IH; [ exact H | ].
    destruct Hk as [[<- | Hk] | Hk].
    + right. rewrite dict_find_set_same. discriminate.
    + left. exact Hk.
    + right. apply dict_find_set_keeps. exact Hk.
Qed.

Lemma returns_dict_comprehension A V (key : A -> string) (value : A -> M V) items :
  (forall x, returns (value x)) ->
  forall acc, returns (dict_comprehension key value items acc).
Proof.
  intros Hv. induction items as [ | x items IH]; simpl; intros acc.
  - apply returns_ret.
  - apply returns_bind; [ apply Hv | intros v; apply IH ].
Qed.

Lemma returns_for_each A B (f : A -> M B) l :
  (forall a, In a l -> returns (f a)) -> returns (for_each f l).
Proof.
  intros Hf w.
  destruct (for_each_ok _ _ f l) with (w := w) as (bs & w1 & H).
  - intros a w' Ha. destruct (Hf a Ha w') as (b & wb & Hb & _). eauto.
  - exists bs, w1. auto.
Qed.

Lemma returns_sample A n (df : list A) :
  0 <= n <= Z.of_nat (List.length df) -> returns (sample n df).
Proof.
  intros Hn. unfold sample.
  destruct (Z.ltb_spec n 0); [ lia | ].
  destruct (Z.ltb_spec (Z.of_nat (List.length df)) n); [ lia | ].
  returns.
Qed.

Lemma bind_exists A B (m : M A) (f : A -> M B) w :
  returns m ->
  (forall a wa, m w = inr (a, wa) -> exists b wb, f a wa = inr (b, wb)) ->
  exists b wb, bind m f w = inr (b, wb).
Proof.
  intros Hm Hf. destruct (Hm w) as (a & wa & Ha & _).
  destruct (Hf a wa Ha) as (b & wb & Hb).
  exists b, wb. unfold bind. rewrite Ha. exact Hb.
Qed.

(** With at least ten rows requested and a date range of at least one day,
    the generator returns a frame. *)
Lemma generate_returns num_rows start_day end_day w :
  10 <= num_rows -> start_day < end_day ->
  exists df w1,
    generate_synthetic_saas_data num_rows start_day end_day w = inr (df, w1).
Proof.
  intros Hn Hd. unfold generate_synthetic_saas_data.
  set (ids := map _ (seq 1 (Z.to_nat (num_rows ÷ 10)))).
  assert (Hq : 1 <= num_rows ÷ 10).
  { apply (Z.quot_le_lower_bound num_rows 10 1); lia. }
  assert (Hids : ids <> []).
  { subst ids. destruct (Z.to_nat (num_rows ÷ 10)) eqn:E; [ lia | discriminate ]. }
  apply bind_exists.
  { apply returns_dict_comprehension. intros _.
    apply returns_np_choice_p; solve [ discriminate | reflexivity ]. }
  intros tm wa Htm.
  apply bind_exists.
  { apply returns_dict_comprehension. intros x. apply returns_assign_plan. }
  intros pm wb Hpm.
  apply bind_exists.
  { apply returns_for_each. intros k _.
    apply returns_bind; [ apply returns_np_randint; lia | intros; apply returns_ret ]. }
  intros dates wc Hdates.
  apply bind_exists.
  { apply returns_for_each. intros date _.
    pose proof returns_random_randint. returns. }
  intros tss wd Htss.
  assert (Hlen : List.length tss = Z.to_nat num_rows).
  { apply for_each_length in Htss. apply for_each_length in Hdates.
    rewrite sort_by_length in Htss. unfold range in Hdates.
    rewrite length_seq in Hdates. congruence. }
  assert (Hkeys : forall cid, In cid ids ->
            dict_find tm cid <> None /\ dict_find pm cid <> None).
  { intros cid Hcid.
    assert (Ht : dict_find tm cid <> None).
    { eapply dict_comprehension_keys; [ exact Htm | ].
      left. rewrite map_id. exact Hcid. }
    split; [ exact Ht | ].
    eapply dict_comprehension_keys; [ exact Hpm | ].
    left. apply dict_find_In. exact Ht. }
  apply bind_exists.
  { apply returns_for_each. intros i Hi. apply returns_generate_row; auto.
    unfold range in Hi. apply in_seq in Hi. lia. }
  intros data we Hdata.
  assert (Hdl : List.length data = Z.to_nat num_rows).
  { apply for_each_length in Hdata. unfold range in Hdata.
    rewrite length_seq in Hdata. exact Hdata. }
  destruct data as [ | r0 data']; [ simpl in Hdl; lia | ].
  set (data := r0 :: data') in *.
  apply bind_exists; [ apply returns_ret | ].
  intros idxs wf Hidxs. apply ret_inr in Hidxs as [-> ->].
  destruct (retry_pass_ok (end_day * seconds_per_day)
              (failed_indices_from 0 data) data we) as (df1 & wg & Hretry).
  { apply Forall_forall. intros i Hi. apply failed_indices_from_bound. exact Hi. }
  unfold bind at 1. rewrite Hretry.
  destruct (Z.ltb_spec num_rows (Z.of_nat (List.length (sort_by timestamp df1))))
    as [Hlt | Hge].
  - apply bind_exists; [ apply returns_sample; lia | ].
    intros s wh _. eexists _, _. reflexivity.
  - eexists _, _. reflexivity.
Qed.

(* ----------------------------------------------------------------- *)
(** *** Every row of the returned frame *)

Lemma is_revenue_true c : is_revenue c = true <-> c = Revenue.
Proof. destruct c; simpl; split; intros H; congruence. Qed.

Lemma drop_prefix4 (revenue : bool) h :
  drop_chars 4 ((if revenue then "REV_" else "EXP_") ++ h)%string = h.
Proof. destruct revenue; reflexivity. Qed.

Lemma original_final tm pm tss lo hi r :
  Forall (fun t => lo <= t < hi) tss ->
  row_ok tm pm tss r -> final_row_ok tm pm lo hi r.
Proof.
  intros Hts (Htm & Hpm & Hin & Hsign & Hrev & h & Hlen & Hid).
  rewrite Forall_forall in Hts. apply Hts in Hin.
  repeat split; auto; lia.
Qed.

Lemma retry_final tm pm tss lo hi orig d :
  Forall (fun t => lo <= t < hi) tss ->
  row_ok tm pm tss orig ->
  1 <= d <= 7 -> timestamp orig + timedelta_days d <= hi ->
  final_row_ok tm pm lo hi (retry_row orig (timestamp orig + timedelta_days d)).
Proof.
  intros Hts (Htm & Hpm & Hin & Hsign & Hrev & h & Hlen & Hid) Hd Hle.
  rewrite Forall_forall in Hts. apply Hts in Hin.
  unfold final_row_ok, retry_row.
  cbn [customer_id customer_type subscription_plan amount transaction_type
       category timestamp transaction_id payment_status].
  repeat split; auto.
  unfold timedelta_days, seconds_per_day. lia.
Qed.

Lemma generate_rows num_rows start_day end_day w df w1 :
  generate_synthetic_saas_data num_rows start_day end_day w = inr (df, w1) ->
  exists tm pm,
    Forall (final_row_ok tm pm (start_day * seconds_per_day)
                         (end_day * seconds_per_day)) df.
Proof.
  intros H. apply generate_inv in H
    as (tm & pm & tss & data & extra & rest
        & Hts & Hrows & _ & _ & Hex & Hperm & _ & _).
  exists tm, pm.
  assert (Hall : Forall (final_row_ok tm pm (start_day * seconds_per_day)
                                      (end_day * seconds_per_day))
                        (data ++ extra)).
  { apply Forall_app. split.
    - eapply Forall_impl; [ | exact Hrows ].
      intros r Hr. eapply original_final; eassumption.
    - apply Forall_forall. intros r Hr.
      eapply retries_orig in Hr as (idx & orig & d & _ & Hn & Hd & Hle & ->);
        [ | exact Hex ].
      apply nth_error_In in Hn.
      rewrite Forall_forall in Hrows.
      eapply retry_final; eauto. }
  symmetry in Hperm. eapply Permutation_Forall in Hall; [ | exact Hperm ].
  apply Forall_app in Hall. tauto.
Qed.

(* ----------------------------------------------------------------- *)
(** *** Distinct ids *)

Lemma distinctb_NoDup l : distinctb l = true -> NoDup l.
Proof.
  induction l as [ | s l IH]; simpl; intros H.
  - constructor.
  - apply andb_true_iff in H as [Hs Hl]. constructor; [ | apply IH; exact Hl ].
    intros Hin. apply negb_true_iff in Hs.
    assert (E : existsb (String.eqb s) l = true).
    { apply existsb_exists. exists s. split; [ exact Hin | apply String.eqb_refl ]. }
    congruence.
Qed.

Lemma retry_ids_NoDup end_date data idxs extra :
  retries end_date data idxs extra ->
  NoDup idxs -> NoDup (map id_suffix data) ->
  NoDup (map transaction_id extra).
Proof.
  intros Hex Hidxs Hdata.
  induction Hex as [ | idx idxs extra Hex IH | idx idxs extra orig d Hn Hd Hle Hex IH].
  - constructor.
  - apply IH. inversion Hidxs; assumption.
  - inversion Hidxs as [ | ? ? Hnotin Hidxs']; subst.
    cbn [map]. constructor; [ | apply IH; exact Hidxs' ].
    intros Hin. apply in_map_iff in Hin as (r & Hid & Hr).
    eapply retries_orig in Hr as (idx' & orig' & d' & Hi' & Hn' & _ & _ & ->);
      [ | exact Hex ].
    cbn [retry_row transaction_id String.append] in Hid.
    assert (Hs : id_suffix orig' = id_suffix orig)
      by (unfold id_suffix; congruence).
    assert (Eidx : idx = idx').
    { apply (proj1 (NoDup_nth_error _) Hdata).
      - rewrite length_map. apply nth_error_Some. congruence.
      - rewrite !nth_error_map, Hn, Hn'. simpl. congruence. }
    congruence.
Qed.

Lemma all_ids_NoDup tm pm tss end_date data extra :
  Forall (row_ok tm pm tss) data ->
  retries end_date data (failed_indices_from 0 data) extra ->
  NoDup (map id_suffix data) ->
  NoDup (map transaction_id (data ++ extra)).
Proof.
  intros Hrows Hex Hdata. rewrite map_app. apply NoDup_app.
  - unfold id_suffix in Hdata.
    rewrite <- (map_map transaction_id (drop_chars 4)) in Hdata.
    eapply NoDup_map_inv. exact Hdata.
  - eapply retry_ids_NoDup; [ exact Hex | apply failed_indices_from_NoDup | exact Hdata ].
  - intros id Hin1 Hin2.
    apply in_map_iff in Hin1 as (r & <- & Hr).
    apply in_map_iff in Hin2 as (r' & Hid & Hr').
    eapply retries_orig in Hr' as (idx & orig & d & _ & _ & _ & _ & ->);
      [ | exact Hex ].
    rewrite Forall_forall in Hrows. apply Hrows in Hr
      as (_ & _ & _ & _ & _ & h & _ & Hidr).
    rewrite Hidr in Hid. cbn [retry_row transaction_id String.append] in Hid.
    destruct (is_revenue (category r)); discriminate Hid.
Qed.

(* ----------------------------------------------------------------- *)
(** *** When the generator raises *)

Lemma np_choice_inr A (l : list A) w x w1 :
  np_choice l w = inr (x, w1) -> l <> [].
Proof. destruct l; [ discriminate | discriminate ]. Qed.

(** A frame is returned only for at least ten rows over a range of at least
    one day: with fewer than ten rows the customer pool is empty and the
    first [np.random.choice(customer_ids)] raises (or, with no row at all,
    the frame has no 'payment_status' column); with an empty date range
    [np.random.randint] raises. *)
Lemma generate_inr_requires num_rows start_day end_day w df w1 :
  generate_synthetic_saas_data num_rows start_day end_day w = inr (df, w1) ->
  10 <= num_rows /\ start_day < end_day.
Proof.
  unfold generate_synthetic_saas_data. intros H.
  apply bind_inr in H as (tm & wa & _ & H).
  apply bind_inr in H as (pm & wb & _ & H).
  apply bind_inr in H as (dates & wc & Hdates & H).
  apply bind_inr in H as (tss & wd & _ & H).
  apply bind_inr in H as (data & we & Hdata & H).
  apply bind_inr in H as (idxs & wf & Hidxs & _).
  destruct data as [ | r data]; [ discriminate Hidxs | ].
  unfold range in *.
  destruct (Z.to_nat num_rows) as [ | n] eqn:En.
  { simpl in Hdata. run_inv Hdata. discriminate. }
  simpl in Hdata, Hdates.
  apply bind_inr in Hdata as (r0 & wg & Hrow & _).
  apply bind_inr in Hdates as (d0 & wh & Hd & _).
  apply bind_inr in Hd as (d & wi & Hd & _).
  apply np_randint_range in Hd.
  unfold generate_row in Hrow.
  apply bind_inr in Hrow as (cid & wj & Hcid & _).
  apply np_choice_inr in Hcid.
  split; [ | lia ].
  destruct (Z.lt_ge_cases num_rows 10) as [Hlt | Hge]; [ | exact Hge ].
  exfalso. apply Hcid.
  assert (Hq : num_rows ÷ 10 = 0) by (apply Z.quot_small; lia).
  rewrite Hq. reflexivity.
Qed.

(** The generator returns exactly on these inputs. *)
Lemma generate_returns_iff num_rows start_day end_day w :
  (exists df w1,
     generate_synthetic_saas_data num_rows start_day end_day w = inr (df, w1))
  <-> 10 <= num_rows /\ start_day < end_day.
Proof.
  split.
  - intros (df & w1 & H). eapply generate_inr_requires; exact H.
  - intros [Hn Hd]. apply generate_returns; assumption.
Qed.

(* ----------------------------------------------------------------- *)
(** *** Concrete runs *)

(** Forty rows from 2023-11-01 to 2024-01-15: failed payments are retried,
    the frame is sampled back to forty rows, and two retry records are among
    them. *)
Example mixed_run_retries :
  map (fun r => (transaction_id r, payment_status r))
      (filter is_retry_id
         (rows_of (generate_synthetic_saas_data 40 19662 19737 mixed_world)))
  = [("RETRY_6D0D0F2EAC00"%string, Completed);
     ("RETRY_7AC56E4F5B43"%string, Completed)].
Proof. vm_compute. reflexivity. Qed.

Example mixed_run_expense :
  map (fun r => (transaction_id r, transaction_type r, category r, amount r))
      (filter (fun r => negb (is_revenue (category r)))
         (rows_of (generate_synthetic_saas_data 40 19662 19737 mixed_world)))
  = [("EXP_E801426DBE8E"%string, Downgrade, OperationalExpense, (-28075 # 100)%Q)].
Proof. vm_compute. reflexivity. Qed.

(** Nine rows: the customer pool is empty. *)
Example nine_rows_raise :
  generate_synthetic_saas_data 9 19358 19388 zero_world = inl ValueError.
Proof. vm_compute. reflexivity. Qed.

(** No row: the frame has no column. *)
Example no_row_raises :
  generate_synthetic_saas_data 0 19358 19388 zero_world = inl KeyError.
Proof. vm_compute. reflexivity. Qed.

(** An empty date range. *)
Example empty_range_raises :
  generate_synthetic_saas_data 10 19358 19358 zero_world = inl ValueError.
Proof. vm_compute. reflexivity. Qed.

Example civil_from_days_epoch : civil_from_days 0 = (1970, 1, 1).
Proof. reflexivity. Qed.

Example civil_from_days_default_start : civil_from_days 19358 = (2023, 1, 1).
Proof. reflexivity. Qed.

Example civil_from_days_default_end : civil_from_days 20228 = (2025, 5, 20).
Proof. reflexivity. Qed.

Example customer_id_format : ("CUST_" ++ zfill 6 (str 42))%string = "CUST_000042"%string.
Proof. reflexivity. Qed.

Example round2_half_even : round2 (25 # 1000) = (2 # 100)%Q /\ round2 (35 # 1000) = (4 # 100)%Q.
Proof. split; reflexivity. Qed.

(* ================================================================= *)
(** ** Further properties of the generator: lemmas *)

(** The stages of a successful run, with the equations of the runs of each
    stage. *)
Lemma generate_structure num_rows start_day end_day w df w1 :
  generate_synthetic_saas_data num_rows start_day end_day w = inr (df, w1) ->
  exists tm pm dates tss data extra rest wa wb wc wd,
    dict_comprehension (fun cid => cid)
      (fun _ => np_choice_p customer_types customer_type_weights)
      (customer_ids_of num_rows) [] w = inr (tm, wa) /\
    dict_comprehension fst (fun item => assign_plan (snd item)) tm [] wa
      = inr (pm, wb) /\
    for_each (fun _ : nat => d <- np_randint (end_day - start_day) ;;
                       ret (start_day * seconds_per_day + timedelta_days d))
             (range num_rows) wb = inr (dates, wc) /\
    for_each (fun date => h <- random_randint 8 20 ;;
                          m <- random_randint 0 59 ;;
                          s <- random_randint 0 59 ;;
                          ret (date + timedelta_hms h m s))
             (sort_by (fun d => d) dates) wc = inr (tss, wd) /\
    Forall (fun r => exists i w2 w3,
              generate_row (customer_ids_of num_rows) tm pm tss i w2
              = inr (r, w3)) data /\
    retries (end_day * seconds_per_day) data (failed_indices_from 0 data) extra /\
    Permutation (df ++ rest) (data ++ extra).
Proof.
  unfold generate_synthetic_saas_data. fold (customer_ids_of num_rows).
  intros H.
  apply bind_inr in H as (tm & wa & Htm & H).
  apply bind_inr in H as (pm & wb & Hpm & H).
  apply bind_inr in H as (dates & wc & Hdates & H).
  apply bind_inr in H as (tss & wd & Htss & H).
  apply bind_inr in H as (data & we & Hdata & H).
  apply bind_inr in H as (idxs & wf & Hidxs & H).
  apply bind_inr in H as (df1 & wg & Hretry & H).
  assert (Hi : idxs = failed_indices_from 0 data).
  { destruct data; [ discriminate Hidxs | ].
    apply ret_inr in Hidxs as [-> _]. reflexivity. }
  subst idxs.
  rewrite <- (app_nil_r data) in Hretry at 2.
  apply retry_pass_inv in Hretry as (extra & -> & Hex);
    [ | apply Forall_forall; intros i Hi; apply failed_indices_from_bound; exact Hi ].
  simpl in H.
  assert (Hrows : Forall (fun r => exists i w2 w3,
              generate_row (customer_ids_of num_rows) tm pm tss i w2
              = inr (r, w3)) data).
  { eapply for_each_Forall; [ | exact Hdata ].
    intros i w2 r w3 _ Hr. eauto. }
  assert (Hfinal : exists rest, Permutation (df ++ rest) (data ++ extra)).
  { destruct (num_rows <? Z.of_nat (List.length (sort_by timestamp (data ++ extra)))).
    - apply bind_inr in H as (s & wh & Hs & H). apply ret_inr in H as [-> _].
      apply sample_inr in Hs as (_ & _ & rest & Hperm).
      exists rest. rewrite (sort_by_perm _ timestamp s), Hperm. apply sort_by_perm.
    - apply ret_inr in H as [-> _]. exists []. rewrite app_nil_r.
      apply sort_by_perm. }
  destruct Hfinal as (rest & Hperm).
  exists tm, pm, dates, tss, data, extra, rest, wa, wb, wc, wd.
  repeat split; assumption.
Qed.

(** A property of the rows of the first pass that a retry record inherits
    holds of every row of the returned frame. *)
Lemma final_rows_lift (P : Row -> Prop) end_date data idxs extra df rest :
  (forall orig d, P orig -> 1 <= d <= 7 ->
     P (retry_row orig (timestamp orig + timedelta_days d))) ->
  Forall P data ->
  retries end_date data idxs extra ->
  Permutation (df ++ rest) (data ++ extra) ->
  Forall P df.
Proof.
  intros Hretry Hdata Hex Hperm.
  assert (Hall : Forall P (data ++ extra)).
  { apply Forall_app. split; [ exact Hdata | ].
    apply Forall_forall. intros r Hr.
    eapply retries_orig in Hr as (idx & orig & d & _ & Hn & Hd & _ & ->);
      [ | exact Hex ].
    apply Hretry; [ | exact Hd ].
    rewrite Forall_forall in Hdata. apply Hdata.
    eapply nth_error_In. exact Hn. }
  symmetry in Hperm. eapply Permutation_Forall in Hall; [ | exact Hperm ].
  apply Forall_app in Hall. tauto.
Qed.

(* ----------------------------------------------------------------- *)
(** *** Time of day, customer pool, plans *)

Lemma timestamps_time_of_day start_day end_day n dates tss w wa wb w1 :
  for_each (fun _ : nat => d <- np_randint (end_day - start_day) ;;
                     ret (start_day * seconds_per_day + timedelta_days d))
           (range n) w = inr (dates, wa) ->
  for_each (fun date => h <- random_randint 8 20 ;;
                        m <- random_randint 0 59 ;;
                        s <- random_randint 0 59 ;;
                        ret (date + timedelta_hms h m s))
           (sort_by (fun d => d) dates) wb = inr (tss, w1) ->
  Forall (fun t => 28800 <= time_of_day t <= 75599) tss.
Proof.
  intros Hd Ht.
  assert (Fd : Forall (fun t => exists k, t = k * seconds_per_day) dates).
  { eapply for_each_Forall; [ | exact Hd ].
    intros k w2 t w3 _ H. cbv beta in H.
    apply bind_inr in H as (d & w4 & Hr & H). run_inv H.
    exists (start_day + d). unfold timedelta_days. ring. }
  apply (sort_by_Forall _ (fun d => d)) in Fd.
  assert (F2 : Forall2 (fun date t => exists hms,
                          28800 <= hms <= 75599 /\ t = date + hms)
                       (sort_by (fun d => d) dates) tss).
  { eapply for_each_Forall2; [ | exact Ht ].
    intros date w2 t w3 _ H. cbv beta in H.
    apply bind_inr in H as (h & w4 & Hh & H).
    apply bind_inr in H as (m & w5 & Hm & H).
    apply bind_inr in H as (s & w6 & Hs & H).
    run_inv H.
    apply random_randint_range in Hh; [ | lia ].
    apply random_randint_range in Hm; [ | lia ].
    apply random_randint_range in Hs; [ | lia ].
    exists (timedelta_hms h m s). split; [ unfold timedelta_hms; lia | reflexivity ]. }
  clear - Fd F2. induction F2 as [ | date t ds ts (hms & Hh & ->) _ IH].
  - constructor.
  - inversion Fd as [ | ? ? (k & ->) Fd']; subst.
    constructor; [ | apply IH; assumption ].
    unfold time_of_day. rewrite Z.add_comm, Z_mod_plus_full.
    rewrite Z.mod_small; unfold seconds_per_day; lia.
Qed.

Lemma np_choice_inr_In A (l : list A) w x w1 :
  np_choice l w = inr (x, w1) -> In x l.
Proof.
  intros H. destruct (returns_np_choice A l) with (w := w) as (y & w2 & Hy & Hin).
  - eapply np_choice_inr. exact H.
  - congruence.
Qed.

Lemma generate_row_customer ids tm pm tss i w r w1 :
  generate_row ids tm pm tss i w = inr (r, w1) -> In (customer_id r) ids.
Proof.
  unfold generate_row. intros H.
  apply bind_inr in H as (cid & wa & Ha & H).
  apply np_choice_inr_In in Ha.
  repeat (apply bind_inr in H as (? & ? & _ & H)).
  apply ret_inr in H as [-> _]. exact Ha.
Qed.

Lemma customer_ids_of_spec num_rows cid :
  In cid (customer_ids_of num_rows) <->
  exists i, (1 <= i <= Z.to_nat (Z.quot num_rows 10))%nat /\
            cid = ("CUST_" ++ zfill 6 (str i))%string.
Proof.
  unfold customer_ids_of. rewrite in_map_iff. split.
  - intros (i & <- & Hi). apply in_seq in Hi. exists i. split; [ lia | reflexivity ].
  - intros (i & Hi & ->). exists i. split; [ reflexivity | apply in_seq; lia ].
Qed.

(** Dictionaries built by a comprehension. *)
Lemma dict_find_set_other V (d : dict V) k v k' :
  k' <> k -> dict_find (dict_set d k v) k' = dict_find d k'.
Proof.
  intros Hne. induction d as [ | [k0 v0] d IH]; simpl.
  - destruct (String.eqb_spec k k'); [ congruence | reflexivity ].
  - destruct (String.eqb_spec k0 k) as [-> | Hk0]; simpl.
    + destruct (String.eqb_spec k k'); [ congruence | reflexivity ].
    + destruct (String.eqb_spec k0 k'); [ reflexivity | exact IH ].
Qed.

Lemma dict_comprehension_values A V (R : A -> V -> Prop) (key : A -> string)
    (value : A -> M V) :
  (forall x w v w1, value x w = inr (v, w1) -> R x v) ->
  forall items acc w d w1,
    dict_comprehension key value items acc w = inr (d, w1) ->
    forall k v, dict_find d k = Some v ->
      dict_find acc k = Some v \/ exists x, In x items /\ key x = k /\ R x v.
Proof.
  intros HR. induction items as [ | x items IH]; simpl; intros acc w d w1 H k v Hk.
  - run_inv H. left. exact Hk.
  - apply bind_inr in H as (v0 & wa & Hv & H).
    destruct (IH _ _ _ _ H k v Hk) as [Hacc | (y & Hy & Hky & HRy)].
    + destruct (String.eqb_spec k (key x)) as [-> | Hne].
      * rewrite dict_find_set_same in Hacc. injection Hacc as <-.
        right. exists x. split; [ left; reflexivity | ].
        split; [ reflexivity | eapply HR; exact Hv ].
      * rewrite dict_find_set_other in Hacc by exact Hne. left. exact Hacc.
    + right. exists y. auto.
Qed.

Lemma dict_set_keys V (d : dict V) k v k' :
  In k' (map fst (dict_set d k v)) -> k' = k \/ In k' (map fst d).
Proof.
  induction d as [ | [k0 v0] d IH]; simpl.
  - intros [<- | []]. auto.
  - destruct (String.eqb_spec k0 k) as [-> | Hne]; simpl.
    + intros [<- | H]; auto.
    + intros [<- | H]; [ auto | ]. apply IH in H. tauto.
Qed.

Lemma dict_set_NoDup V (d : dict V) k v :
  NoDup (map fst d) -> NoDup (map fst (dict_set d k v)).
Proof.
  induction d as [ | [k0 v0] d IH]; simpl; intros Hnd.
  - constructor; [ intros [] | constructor ].
  - inversion Hnd as [ | ? ? Hnotin Hnd']; subst.
    destruct (String.eqb_spec k0 k) as [-> | Hne]; simpl.
    + constructor; assumption.
    + constructor; [ | apply IH; exact Hnd' ].
      intros Hin. apply dict_set_keys in Hin as [-> | Hin]; [ congruence | auto ].
Qed.

Lemma dict_comprehension_NoDup A V (key : A -> string) (value : A -> M V) :
  forall items acc w d w1,
    dict_comprehension key value items acc w = inr (d, w1) ->
    NoDup (map fst acc) -> NoDup (map fst d).
Proof.
  induction items as [ | x items IH]; simpl; intros acc w d w1 H Hnd.
  - run_inv H. exact Hnd.
  - apply bind_inr in H as (v0 & wa & _ & H).
    eapply IH; [ exact H | apply dict_set_NoDup; exact Hnd ].
Qed.

Lemma dict_find_of_In V (d : dict V) k v :
  NoDup (map fst d) -> In (k, v) d -> dict_find d k = Some v.
Proof.
  induction d as [ | [k0 v0] d IH]; simpl; intros Hnd Hin.
  - contradiction.
  - inversion Hnd as [ | ? ? Hnotin Hnd']; subst.
    destruct Hin as [E | Hin].
    + injection E as -> ->. rewrite String.eqb_refl. reflexivity.
    + destruct (String.eqb_spec k0 k) as [-> | Hne].
      * exfalso. apply Hnotin. apply in_map_iff. exists (k, v). auto.
      * apply IH; assumption.
Qed.

Lemma assign_plan_allowed ctype w plan w1 :
  assign_plan ctype w = inr (plan, w1) -> plan_allowed ctype plan = true.
Proof.
  destruct ctype; cbn [assign_plan]; unfold np_choice_p; simpl;
    intros H; apply bind_inr in H as (r & wa & _ & H);
    apply ret_inr in H as [-> _];
    repeat match goal with
           | |- context [Qlt_le_dec ?a ?b] => destruct (Qlt_le_dec a b)
           end; reflexivity.
Qed.

Lemma plan_map_allowed ids tm pm w wa wb :
  dict_comprehension (fun cid : string => cid)
    (fun _ => np_choice_p customer_types customer_type_weights) ids [] w
    = inr (tm, wa) ->
  dict_comprehension fst (fun item => assign_plan (snd item)) tm [] wa
    = inr (pm, wb) ->
  forall cid ctype plan,
    dict_find tm cid = Some ctype -> dict_find pm cid = Some plan ->
    plan_allowed ctype plan = true.
Proof.
  intros Htm Hpm cid ctype plan Ht Hp.
  assert (Hnd : NoDup (map fst tm)).
  { eapply dict_comprehension_NoDup; [ exact Htm | constructor ]. }
  eapply (dict_comprehension_values _ _
            (fun item plan => plan_allowed (snd item) plan = true)) in Hp;
    [ | | exact Hpm ].
  - destruct Hp as [Hp | ([k t] & Hin & Hk & Hallowed)]; [ discriminate Hp | ].
    simpl in Hk, Hallowed. subst k.
    apply dict_find_of_In in Hin; [ | exact Hnd ].
    congruence.
  - intros x w2 v w3 Hv. eapply assign_plan_allowed. exact Hv.
Qed.

(* ----------------------------------------------------------------- *)
(** *** The size of an amount *)

Lemma random_uniform_range a b w x w1 :
  (a <= b)%Q -> random_uniform a b w = inr (x, w1) -> (a <= x <= b)%Q.
Proof.
  intros Hab H. split; [ eapply random_uniform_ge; eassumption | ].
  unfold random_uniform in H.
  apply bind_inr in H as (u & wa & Hu & H). apply ret_inr in H as [-> _].
  apply random_random_range in Hu. nra.
Qed.

Lemma round_half_even_ge n x : (inject_Z n <= x)%Q -> n <= round_half_even x.
Proof.
  intros H. apply Qfloor_resp_le in H. rewrite Qfloor_Z in H.
  destruct (round_half_even_floor x); lia.
Qed.

Lemma round_half_even_le n x : (x <= inject_Z n)%Q -> round_half_even x <= n.
Proof.
  intros H. pose proof (Qfloor_resp_le _ _ H) as Hf. rewrite Qfloor_Z in Hf.
  destruct (Z.eq_dec (Qfloor x) n) as [E | E].
  - unfold round_half_even. rewrite E.
    assert (Hx : (x == inject_Z n)%Q).
    { apply Qle_antisym; [ exact H | ]. rewrite <- E. apply Qfloor_le. }
    assert (Hc : (x - inject_Z n ?= 1 # 2)%Q = Lt).
    { apply (proj1 (Qlt_alt _ _)). rewrite Hx. unfold Qminus.
      rewrite Qplus_opp_r. reflexivity. }
    rewrite Hc. lia.
  - destruct (round_half_even_floor x); lia.
Qed.

Lemma round2_bounds lo hi x :
  (inject_Z lo <= x * 100)%Q -> (x * 100 <= inject_Z hi)%Q ->
  (lo # 100 <= round2 x)%Q /\ (round2 x <= hi # 100)%Q.
Proof.
  intros Hlo Hhi. unfold round2.
  assert (L : lo <= round_half_even (x * 100)).
  { apply round_half_even_ge. exact Hlo. }
  assert (U : round_half_even (x * 100) <= hi).
  { apply round_half_even_le. exact Hhi. }
  unfold Qle. cbn [Qnum Qden]. lia.
Qed.

Lemma plan_prices_range p : (0 <= plan_prices p <= 500)%Q.
Proof. destruct p; unfold plan_prices; split; unfold Qle; simpl; lia. Qed.

Lemma base_amount_bounds tx cat plan w a w1 :
  base_amount tx cat plan w = inr (a, w1) ->
  (is_revenue cat = false -> (-5000 <= a <= -10)%Q) /\
  (is_revenue cat = true -> tx <> Downgrade ->
     (-500 <= a <= 500)%Q /\ (is_subscription tx = true -> (0 <= a)%Q)).
Proof.
  unfold base_amount. pose proof (plan_prices_range plan) as Hp.
  destruct (is_revenue cat) eqn:Hrev; intros H;
    (split; [ intros E | intros E Htx ]); try discriminate E.
  - destruct tx; try congruence; repeat run_inv H;
      try (apply random_uniform_range in H; [ | unfold Qle; simpl; lia ]);
      try (apply random_uniform_range in Hrun; [ | unfold Qle; simpl; lia ]);
      (split; [ | intros S; try discriminate S ]); try lra; try nra.
  - destruct cat; try discriminate; repeat run_inv H;
      (apply random_uniform_range in Hrun; [ | unfold Qle; simpl; lia ]); lra.
Qed.

(** The seasonal effects multiply by a factor between 1 and 1.3, or 1.56
    for a subscription. *)
Lemma seasonal_factor ts tx a w a' w1 :
  seasonal ts tx a w = inr (a', w1) ->
  exists m, (a' == a * m)%Q /\ (1 <= m)%Q /\
    (m <= if is_subscription tx then 156 # 100 else 13 # 10)%Q.
Proof.
  unfold seasonal. intros H.
  apply bind_inr in H as (a1 & wa & H1 & H).
  assert (F1 : exists m1, (a1 == a * m1)%Q /\ (1 <= m1)%Q /\
             (m1 <= if is_subscription tx then 12 # 10 else 1)%Q).
  { destruct (25 <=? day_of ts); destruct (is_subscription tx);
      cbn [andb] in H1.
    - apply bind_inr in H1 as (m & wb & Hm & H1). apply ret_inr in H1 as [-> _].
      apply random_uniform_range in Hm; [ | unfold Qle; simpl; lia ].
      exists m. split; [ reflexivity | lra ].
    - apply ret_inr in H1 as [-> _]. exists 1%Q. split; [ ring | lra ].
    - apply ret_inr in H1 as [-> _]. exists 1%Q. split; [ ring | lra ].
    - apply ret_inr in H1 as [-> _]. exists 1%Q. split; [ ring | lra ]. }
  destruct F1 as (m1 & E1 & L1 & U1).
  destruct (month_of ts =? 12).
  - apply bind_inr in H as (m & wb & Hm & H). apply ret_inr in H as [-> _].
    apply random_uniform_range in Hm; [ | unfold Qle; simpl; lia ].
    exists (m1 * m)%Q. split; [ rewrite E1; ring | ].
    destruct (is_subscription tx); split; nra.
  - apply ret_inr in H as [-> _]. exists m1. split; [ exact E1 | ].
    destruct (is_subscription tx); split; lra.
Qed.

Lemma generate_row_amount ids tm pm tss i w r w1 :
  generate_row ids tm pm tss i w = inr (r, w1) ->
  (exists cents, amount r = cents # 100) /\
  (category r <> Revenue -> (-6500 <= amount r <= -10)%Q) /\
  (category r = Revenue -> (-650 <= amount r <= 780)%Q).
Proof.
  unfold generate_row. intros H.
  apply bind_inr in H as (cid & wa & _ & H).
  apply bind_inr in H as (ctype & wb & _ & H).
  apply bind_inr in H as (plan & wc & _ & H).
  apply bind_inr in H as (tx & wd & _ & H).
  apply bind_inr in H as (cat & we & Hcat & H).
  apply bind_inr in H as (amt & wf & Hamt & H).
  apply bind_inr in H as (reg & wg & _ & H).
  apply bind_inr in H as (status & wh & _ & H).
  apply bind_inr in H as (ts & wi & _ & H).
  apply bind_inr in H as (amt' & wj & Hseason & H).
  apply bind_inr in H as (hex & wk & _ & H).
  apply ret_inr in H as [-> _].
  cbn [amount category].
  apply choose_category_revenue in Hcat.
  apply base_amount_bounds in Hamt as [Hexp Hrev].
  apply seasonal_factor in Hseason as (m & Em & Lm & Um).
  split; [ eexists; reflexivity | ].
  split.
  - intros Hc.
    assert (E : is_revenue cat = false).
    { destruct (is_revenue cat) eqn:E; [ | reflexivity ].
      apply is_revenue_true in E. contradiction. }
    specialize (Hexp E).
    assert (Htx : is_subscription tx = false).
    { rewrite E in Hcat. destruct tx; try discriminate Hcat. reflexivity. }
    rewrite Htx in Um.
    destruct (round2_bounds (-650000) (-1000) amt') as [L U];
      [ rewrite Em; unfold inject_Z; nra .. | ].
    split; lra.
  - intros Hc. apply is_revenue_true in Hc.
    assert (Htx : tx <> Downgrade).
    { rewrite Hc in Hcat. intros ->. discriminate Hcat. }
    destruct (Hrev Hc Htx) as [Hb Hsub].
    assert (B : (-65000 # 100 <= round2 amt')%Q /\ (round2 amt' <= 78000 # 100)%Q).
    { destruct (is_subscription tx) eqn:S.
      - specialize (Hsub eq_refl).
        apply round2_bounds; rewrite Em; unfold inject_Z; nra.
      - apply round2_bounds; rewrite Em; unfold inject_Z; nra. }
    destruct B as [L U]. split; lra.
Qed.

(* ----------------------------------------------------------------- *)
(** *** Counting retries; runs that raise *)

Lemma retries_length end_date df0 idxs extra :
  retries end_date df0 idxs extra -> (List.length extra <= List.length idxs)%nat.
Proof. induction 1; simpl; lia. Qed.

Lemma failed_indices_from_length df : forall from,
  List.length (failed_indices_from from df)
  = List.length (filter (fun r => is_failed (payment_status r)) df).
Proof.
  induction df as [ | r df IH]; simpl; intros from.
  - reflexivity.
  - destruct (is_failed (payment_status r)); simpl; rewrite IH; reflexivity.
Qed.

Lemma bind_inl A B (m : M A) (f : A -> M B) w e :
  m w = inl e -> bind m f w = inl e.
Proof. unfold bind. intros ->. reflexivity. Qed.

Lemma bind_step A B (m : M A) (f : A -> M B) w a w1 :
  m w = inr (a, w1) -> bind m f w = f a w1.
Proof. unfold bind. intros ->. reflexivity. Qed.

Lemma np_randint_raises h w : h <= 0 -> np_randint h w = inl ValueError.
Proof.
  intros H. unfold np_randint. destruct (Z.leb_spec h 0); [ reflexivity | lia ].
Qed.

Lemma round2_plan_price p : (round2 (plan_prices p) == plan_prices p)%Q.
Proof. destruct p; reflexivity. Qed.

Lemma generate_row_subscription_price ids tm pm tss i w r w1 :
  generate_row ids tm pm tss i w = inr (r, w1) ->
  transaction_type r = Subscription ->
  day_of (timestamp r) < 25 -> month_of (timestamp r) <> 12 ->
  (amount r == plan_prices (subscription_plan r))%Q.
Proof.
  unfold generate_row. intros H.
  apply bind_inr in H as (cid & wa & _ & H).
  apply bind_inr in H as (ctype & wb & _ & H).
  apply bind_inr in H as (plan & wc & _ & H).
  apply bind_inr in H as (tx & wd & _ & H).
  apply bind_inr in H as (cat & we & Hcat & H).
  apply bind_inr in H as (amt & wf & Hamt & H).
  apply bind_inr in H as (reg & wg & _ & H).
  apply bind_inr in H as (status & wh & _ & H).
  apply bind_inr in H as (ts & wi & _ & H).
  apply bind_inr in H as (amt' & wj & Hseason & H).
  apply bind_inr in H as (hex & wk & _ & H).
  apply ret_inr in H as [-> _].
  cbn [amount transaction_type timestamp subscription_plan].
  intros -> Hday Hmonth.
  apply choose_category_revenue in Hcat.
  unfold base_amount in Hamt. rewrite Hcat in Hamt.
  apply ret_inr in Hamt as [-> _].
  unfold seasonal in Hseason.
  destruct (Z.leb_spec 25 (day_of ts)) as [Hge | _]; [ lia | ].
  destruct (Z.eqb_spec (month_of ts) 12) as [He | _]; [ contradiction | ].
  cbn [andb] in Hseason.
  apply bind_inr in Hseason as (a1 & wl & H1 & Hseason).
  apply ret_inr in H1 as [-> _]. apply ret_inr in Hseason as [-> _].
  apply round2_plan_price.
Qed.

(* ----------------------------------------------------------------- *)
(** *** The two passes of a run *)

(** A successful run is a first pass, the retry pass over its rows, and a
    final frame whose rows are rows of the two passes. *)
Lemma generate_passes num_rows start_day end_day w df w1 :
  generate_synthetic_saas_data num_rows start_day end_day w = inr (df, w1) ->
  exists tm pm tss data extra rest wa wb,
    first_pass num_rows start_day end_day w = inr (data, wa) /\
    retry_pass (end_day * seconds_per_day) (failed_indices_from 0 data) data wa
      = inr (data ++ extra, wb) /\
    Permutation (df ++ rest) (data ++ extra) /\
    Forall (row_ok tm pm tss) data /\
    map id_suffix data = uuids_drawn num_rows w /\
    retries (end_day * seconds_per_day) data (failed_indices_from 0 data) extra.
Proof.
  intros H. pose proof H as Hinv.
  unfold generate_synthetic_saas_data in H.
  apply bind_inr in H as (tm & wa & Htm & H).
  assert (Ka : uuid_state wa = uuid_state w).
  { eapply keeps_elim; [ | exact Htm ].
    apply keeps_dict_comprehension. intros; auto with keeps. }
  apply bind_inr in H as (pm & wb & Hpm & H).
  assert (Kb : uuid_state wb = uuid_state wa).
  { eapply keeps_elim; [ | exact Hpm ].
    apply keeps_dict_comprehension.
    intros x; unfold assign_plan; destruct (snd x); auto with keeps. }
  apply bind_inr in H as (dates & wc & Hdates & H).
  assert (Kc : uuid_state wc = uuid_state wb).
  { eapply keeps_elim; [ | exact Hdates ]. apply keeps_for_each. intros; keeps. }
  apply bind_inr in H as (tss & wd & Htss & H).
  assert (Kd : uuid_state wd = uuid_state wc).
  { eapply keeps_elim; [ | exact Htss ]. apply keeps_for_each. intros; keeps. }
  apply bind_inr in H as (data & we & Hdata & H).
  apply bind_inr in H as (idxs & wf & Hidxs & H).
  apply bind_inr in H as (df1 & wg & Hretry & H).
  assert (Kw : uuid_state wd = uuid_state w) by congruence.
  unfold uuid_state in Kw. injection Kw as Kbits Kused.
  assert (Hi : idxs = failed_indices_from 0 data /\ wf = we).
  { destruct data; [ discriminate Hidxs | ].
    apply ret_inr in Hidxs as [-> ->]. split; reflexivity. }
  destruct Hi as [-> ->].
  pose proof Hretry as Hretry'.
  rewrite <- (app_nil_r data) in Hretry' at 2.
  apply retry_pass_inv in Hretry' as (extra & E & Hex);
    [ | apply Forall_forall; intros i Hi; apply failed_indices_from_bound; exact Hi ].
  simpl in E. subst df1.
  assert (Hfinal : exists rest, Permutation (df ++ rest) (data ++ extra)).
  { destruct (num_rows <? Z.of_nat (List.length (sort_by timestamp (data ++ extra)))).
    - apply bind_inr in H as (s & wh & Hs & H). apply ret_inr in H as [-> _].
      apply sample_inr in Hs as (_ & _ & rest & Hperm).
      exists rest. rewrite (sort_by_perm _ timestamp s), Hperm. apply sort_by_perm.
    - apply ret_inr in H as [-> _]. exists []. rewrite app_nil_r.
      apply sort_by_perm. }
  destruct Hfinal as (rest & Hperm).
  exists tm, pm, tss, data, extra, rest, we, wg.
  split.
  { unfold first_pass. cbv zeta.
    erewrite bind_step; [ | exact Htm ].
    erewrite bind_step; [ | exact Hpm ].
    erewrite bind_step; [ | exact Hdates ].
    erewrite bind_step; [ | exact Htss ].
    exact Hdata. }
  split; [ exact Hretry | ].
  split; [ exact Hperm | ].
  split.
  { eapply for_each_Forall; [ | exact Hdata ].
    intros i w2 r w3 _ Hr. eapply generate_row_ok_inv; exact Hr. }
  split; [ | exact Hex ].
  eapply for_each_uuid with (g := id_suffix) (h := uuid4_hex12_of) in Hdata
    as (Hmap & _ & _).
  - rewrite Hmap. unfold uuids_drawn, range. rewrite length_seq.
    apply map_ext. intros k. rewrite Kbits, Kused. reflexivity.
  - intros i w2 r w3 Hr. eapply generate_row_uuid; exact Hr.
Qed.

Lemma row_ok_original_id tm pm tss r :
  row_ok tm pm tss r -> original_id r /\ String.length (id_suffix r) = 12%nat.
Proof.
  intros (_ & _ & _ & _ & _ & h & Hlen & Hid). split.
  - exists h. split; [ exact Hlen | ].
    destruct (is_revenue (category r)) eqn:E.
    + left. split; [ apply is_revenue_true; exact E | exact Hid ].
    + right. split; [ | exact Hid ].
      intros C. apply is_revenue_true in C. congruence.
  - unfold id_suffix. rewrite Hid, drop_prefix4. exact Hlen.
Qed.

Lemma row_ok_sign tm pm tss r :
  row_ok tm pm tss r ->
  (amount r ?= 0)%Q = sign_by_type (transaction_type r) (subscription_plan r) /\
  (category r = Revenue <-> transaction_type r <> Downgrade).
Proof.
  intros (_ & _ & _ & Hsign & Hrev & _). split.
  - rewrite Hsign. unfold amount_sign. rewrite Hrev.
    destruct (transaction_type r); reflexivity.
  - split.
    + intros Hc. apply is_revenue_true in Hc. rewrite Hc in Hrev.
      destruct (transaction_type r); congruence.
    + intros Hn. apply is_revenue_true. rewrite Hrev.
      destruct (transaction_type r); congruence.
Qed.

(* ================================================================= *)
(** ** The loader: lemmas *)



(** Splits the membership of an event in a trace with a symbolic middle
    part made of log records. *)
Ltac trace_cases H Hnocall :=
  repeat first
    [ discriminate H
    | contradiction H
    | apply in_app_or in H; destruct H as [H | H];
      [ exfalso; eapply Hnocall; exact H | ]
    | destruct H as [H | H]; [ try discriminate H | ] ].


(* ----------------------------------------------------------------- *)
(** *** The paths through the loader *)

Lemma loader_check_critical_trace df cols :
  Loader.check_critical df cols
  = (map (Loader.null_warning df) (filter (Loader.has_nulls df) cols),
     Loader.Ok tt).
Proof.
  induction cols as [ | col cols IH]; simpl.
  - reflexivity.
  - rewrite IH. unfold Loader.has_nulls.
    destruct (Loader.has_column df col && Nat.ltb 0 (Loader.null_count df col));
      reflexivity.
Qed.

Lemma loader_warnings_facts df cols :
  let tc := map (Loader.null_warning df) cols in
  Loader.calls tc = [] /\
  (forall op b, ~ In (Loader.Call op b) tc) /\
  filter Loader.is_error_log tc = [] /\
  filter Loader.is_warning_log tc = tc.
Proof.
  induction cols as [ | col cols (Hc & Hn & He & Hw)]; simpl.
  - repeat split; auto.
  - repeat split; auto.
    + intros op b [E | Hin]; [ discriminate E | eapply Hn; exact Hin ].
    + simpl in Hw. rewrite Hw. reflexivity.
Qed.

(** Splits a goal about a run of the loader into the paths of the run. On
    each path the trace is explicit but for the null warnings [tc], which
    are kept as a list with its facts. *)
Ltac loader_paths env csv_file project_id dataset_id table_id key_path :=
  unfold Loader.load_data_to_bigquery, Loader.load_body;
  cbv zeta;
  let full_table_id := fresh "full_table_id" in
  let dataset_name := fresh "dataset_name" in
  let Ef := fresh "Ef" in
  let En := fresh "En" in
  remember (project_id ++ "." ++ dataset_id ++ "." ++ table_id)%string
    as full_table_id eqn:Ef;
  remember (project_id ++ "." ++ dataset_id)%string as dataset_name eqn:En;
  clear Ef En;
  let E1 := fresh "Eexists" in
  let E2 := fresh "Eread" in
  let E3 := fresh "Ecol" in
  let E4 := fresh "Econv" in
  let df := fresh "df" in
  let df' := fresh "df'" in
  destruct (Loader.path_exists env csv_file) eqn:E1;
  [ destruct (Loader.read_csv env csv_file) as [df | ?] eqn:E2;
    [ cbn [Loader.bind Loader.call Loader.log Loader.ret negb];
      rewrite (loader_check_critical_trace df);
      let tc := fresh "tc" in
      let Hc := fresh "Hcalls" in
      let Hn := fresh "Hnocall" in
      let He := fresh "Hnoerr" in
      let Hw := fresh "Hwarn" in
      destruct (loader_warnings_facts df
                  (filter (Loader.has_nulls df)
                     ["transaction_id"; "timestamp"; "customer_id"; "amount"]%string))
        as (Hc & Hn & He & Hw);
      set (tc := map (Loader.null_warning df) _) in *;
      let Htc := fresh "Htc" in
      assert (Htc : tc = map (Loader.null_warning df)
                       (filter (Loader.has_nulls df) Loader.critical_columns))
        by reflexivity;
      clearbody tc;
      destruct (Loader.has_column df "timestamp") eqn:E3;
      [ destruct (Loader.to_datetime env df) as [df' | ?] eqn:E4 | ];
      cbn [Loader.bind Loader.call Loader.log Loader.ret andb];
      try match goal with
          | |- context [Loader.load_table_from_dataframe _ ?x _] =>
              destruct (Loader.from_service_account_json env key_path)
                as [[] | ?] eqn:?;
              [ destruct (Loader.get_dataset env dataset_id) as [[] | ?] eqn:?;
                [ | destruct (Loader.create_dataset env _) as [[] | ?] eqn:? ];
                [ destruct (Loader.load_table_from_dataframe env x _)
                    as [[] | ?] eqn:?;
                  [ destruct (Loader.job_result env) as [[] | ?] eqn:?;
                    [ destruct (Loader.get_table env _) as [? | ?] eqn:? | ]
                  | ] ..
                | ]
              | ]
          end
    | ]
  | ];
  repeat match goal with e : Loader.exc |- _ => destruct e end;
  simpl; rewrite <- ?app_assoc; simpl.

(* ================================================================= *)
(** ** The generator: properties of the specification *)

(** C1 as stated fails: a refund is a fraction of the plan price, and the
    price of the 'Free' plan is 0, so a refund row of a 'Free' customer has
    amount 0, which is not strictly negative. *)
Lemma refund_of_free_plan_not_negative :
  exists df w1,
    generate_synthetic_saas_data 10 19358 19388 zero_world = inr (df, w1) /\
    exists r, In r df /\ transaction_type r = Refund /\
              subscription_plan r = Free /\ ~ (amount r < 0)%Q.
Proof.
  eexists _, _. split; [ vm_compute; reflexivity | ].
  eexists. split; [ right; left; reflexivity | ].
  split; [ reflexivity | ]. split; [ reflexivity | ].
  intros H. vm_compute in H. discriminate H.
Qed.

(** C1 (amended). In every row of the returned frame the sign of [amount]
    is fixed by the row's transaction type and plan, and the category by the
    transaction type. The amount is positive for upgrades, add-ons and
    one-time purchases; it has the sign of the plan price for subscriptions
    (positive, or zero on the 'Free' plan); it is negative for every
    downgrade; and for a refund it is negative, or zero on the 'Free' plan.
    The category is 'Revenue' exactly when the type is not 'Downgrade', so
    the rows outside 'Revenue' are the downgrades, all of them negative. In
    particular a refund is never positive and is strictly negative unless
    the customer is on the 'Free' plan. *)
Theorem amount_sign_rule num_rows start_day end_day w df w1 :
  generate_synthetic_saas_data num_rows start_day end_day w = inr (df, w1) ->
  forall r, In r df ->
    (amount r ?= 0)%Q
      = sign_by_type (transaction_type r) (subscription_plan r) /\
    (category r = Revenue <-> transaction_type r <> Downgrade) /\
    (amount r ?= 0)%Q
      = amount_sign (transaction_type r) (category r) (subscription_plan r) /\
    (transaction_type r = Upgrade \/ transaction_type r = AddOn \/
     transaction_type r = OneTimePurchase -> (0 < amount r)%Q) /\
    (transaction_type r = Subscription ->
       (subscription_plan r = Free -> (amount r == 0)%Q) /\
       (subscription_plan r <> Free -> (0 < amount r)%Q)) /\
    (transaction_type r = Downgrade -> (amount r < 0)%Q) /\
    (category r <> Revenue -> (amount r < 0)%Q) /\
    (transaction_type r = Refund ->
       (amount r <= 0)%Q /\ (subscription_plan r <> Free -> (amount r < 0)%Q)).
Proof.
  intros H. apply generate_passes in H
    as (tm & pm & tss & data & extra & rest & wa & wb
        & _ & _ & Hperm & Hrows & _ & Hex).
  assert (Hall : Forall (fun r =>
            (amount r ?= 0)%Q
              = sign_by_type (transaction_type r) (subscription_plan r) /\
            (category r = Revenue <-> transaction_type r <> Downgrade) /\
            (amount r ?= 0)%Q
              = amount_sign (transaction_type r) (category r)
                            (subscription_plan r)) df).
  { eapply final_rows_lift; [ | | exact Hex | exact Hperm ].
    - intros orig d Ho _. exact Ho.
    - eapply Forall_impl; [ | exact Hrows ].
      intros r Hr. destruct (row_ok_sign _ _ _ _ Hr) as [Hs Hc].
      destruct Hr as (_ & _ & _ & Hsign & _). auto. }
  rewrite Forall_forall in Hall.
  intros r Hr. destruct (Hall r Hr) as (Hs & Hc & Hsign).
  split; [ exact Hs | ]. split; [ exact Hc | ]. split; [ exact Hsign | ].
  split.
  { intros Htx. apply (proj2 (Qgt_alt (amount r) 0)). rewrite Hs.
    destruct Htx as [-> | [-> | ->]]; reflexivity. }
  split.
  { intros Htx. rewrite Htx in Hs. split.
    - intros Hp. rewrite Hp in Hs. apply (proj2 (Qeq_alt (amount r) 0)). exact Hs.
    - intros Hp. apply (proj2 (Qgt_alt (amount r) 0)). rewrite Hs.
      destruct (subscription_plan r); solve [ reflexivity | congruence ]. }
  split.
  { intros Htx. rewrite Htx in Hs. apply (proj2 (Qlt_alt (amount r) 0)). exact Hs. }
  split.
  { intros Hcat. apply (proj2 (Qlt_alt (amount r) 0)). rewrite Hs.
    destruct (transaction_type r); try reflexivity;
      exfalso; apply Hcat; apply Hc; discriminate. }
  intros Htx. rewrite Htx in Hs. split.
  - apply (proj2 (Qle_alt (amount r) 0)). rewrite Hs.
    destruct (subscription_plan r); simpl; discriminate.
  - intros Hp. apply (proj2 (Qlt_alt (amount r) 0)). rewrite Hs.
    destruct (subscription_plan r); solve [ reflexivity | congruence ].
Qed.

Lemma amount_sign_rule_witness :
  exists df w1,
    generate_synthetic_saas_data 40 19662 19737 mixed_world = inr (df, w1) /\
    forall r, In r df ->
      (amount r ?= 0)%Q
        = sign_by_type (transaction_type r) (subscription_plan r) /\
      (category r = Revenue <-> transaction_type r <> Downgrade) /\
      (amount r ?= 0)%Q
        = amount_sign (transaction_type r) (category r) (subscription_plan r) /\
      (transaction_type r = Upgrade \/ transaction_type r = AddOn \/
       transaction_type r = OneTimePurchase -> (0 < amount r)%Q) /\
      (transaction_type r = Subscription ->
         (subscription_plan r = Free -> (amount r == 0)%Q) /\
         (subscription_plan r <> Free -> (0 < amount r)%Q)) /\
      (transaction_type r = Downgrade -> (amount r < 0)%Q) /\
      (category r <> Revenue -> (amount r < 0)%Q) /\
      (transaction_type r = Refund ->
         (amount r <= 0)%Q /\ (subscription_plan r <> Free -> (amount r < 0)%Q)).
Proof.
  eexists _, _. split; [ vm_compute; reflexivity | ].
  eapply (amount_sign_rule 40 19662 19737 mixed_world).
  vm_compute. reflexivity.
Defined.

(** C2. In the returned frame two rows, retry rows included, that share a
    [customer_id] have the same [customer_type] and the same
    [subscription_plan]. *)
Theorem customer_attributes_functional num_rows start_day end_day w df w1 :
  generate_synthetic_saas_data num_rows start_day end_day w = inr (df, w1) ->
  forall r1 r2, In r1 df -> In r2 df ->
    customer_id r1 = customer_id r2 ->
    customer_type r1 = customer_type r2 /\
    subscription_plan r1 = subscription_plan r2.
Proof.
  intros H r1 r2 H1 H2 Hid. apply generate_rows in H as (tm & pm & Hall).
  rewrite Forall_forall in Hall.
  apply Hall in H1 as (Ht1 & Hp1 & _). apply Hall in H2 as (Ht2 & Hp2 & _).
  rewrite Hid in Ht1, Hp1. split; congruence.
Qed.

Lemma customer_attributes_functional_witness :
  exists df w1,
    generate_synthetic_saas_data 40 19662 19737 mixed_world = inr (df, w1) /\
    forall r1 r2, In r1 df -> In r2 df ->
      customer_id r1 = customer_id r2 ->
      customer_type r1 = customer_type r2 /\
      subscription_plan r1 = subscription_plan r2.
Proof.
  eexists _, _. split; [ vm_compute; reflexivity | ].
  eapply (customer_attributes_functional 40 19662 19737 mixed_world).
  vm_compute. reflexivity.
Defined.

(** C3. For every requested row count, every date range and every random
    stream, a frame that [generate_synthetic_saas_data] returns has exactly
    [num_rows] rows, with or without retry rows and downsampling; and a
    frame is returned whenever at least ten rows are requested over a range
    of at least one day. *)
Theorem generated_row_count num_rows start_day end_day w :
  (forall df w1,
     generate_synthetic_saas_data num_rows start_day end_day w = inr (df, w1) ->
     Z.of_nat (List.length df) = num_rows) /\
  (10 <= num_rows -> start_day < end_day ->
   exists df w1,
     generate_synthetic_saas_data num_rows start_day end_day w = inr (df, w1)).
Proof.
  split.
  - intros df w1 H. apply generate_inv in H
      as (tm & pm & tss & data & extra & rest & _ & _ & _ & _ & _ & _ & _ & Hlen).
    exact Hlen.
  - apply generate_returns.
Qed.

Lemma generated_row_count_witness :
  exists df w1,
    generate_synthetic_saas_data 40 19662 19737 mixed_world = inr (df, w1) /\
    Z.of_nat (List.length df) = 40.
Proof.
  destruct (proj2 (generated_row_count 40 19662 19737 mixed_world))
    as (df & w1 & H); [ lia | lia | ].
  exists df, w1. split; [ exact H | ].
  exact (proj1 (generated_row_count 40 19662 19737 mixed_world) df w1 H).
Defined.

(** C4. The second pass over a frame returns the frame followed by the
    retry records, and every retry record comes from a 'Failed' row of the
    frame: its status is 'Completed', its timestamp is that of the failed
    row plus one to seven days and is not after [end_date], its id is
    'RETRY_' followed by the failed row's id without its first four
    characters, and its other fields are those of the failed row. *)
Theorem retry_records end_date df w :
  exists df1 w1 extra,
    retry_pass end_date (failed_indices_from 0 df) df w = inr (df1, w1) /\
    df1 = df ++ extra /\
    Forall (fun r => exists orig, In orig df /\ is_retry_of end_date orig r)
           extra.
Proof.
  assert (Hb : Forall (fun i => (i < List.length df)%nat)
                      (failed_indices_from 0 df)).
  { apply Forall_forall. intros i Hi. apply failed_indices_from_bound. exact Hi. }
  destruct (retry_pass_ok end_date (failed_indices_from 0 df) df w Hb)
    as (df1 & w1 & H).
  exists df1, w1.
  pose proof H as H'. rewrite <- (app_nil_r df) in H' at 2.
  apply retry_pass_inv in H' as (extra & -> & Hex); [ | exact Hb ].
  exists extra. split; [ exact H | split; [ reflexivity | ] ].
  apply Forall_forall. intros r Hr.
  eapply retries_orig in Hr as (idx & orig & d & Hidx & Hn & Hd & Hle & ->);
    [ | exact Hex ].
  exists orig. split; [ eapply nth_error_In; exact Hn | ].
  apply failed_indices_from_spec in Hidx as (_ & r' & Hn' & Hfailed).
  rewrite Nat.sub_0_r in Hn'. assert (r' = orig) by congruence. subst r'.
  unfold is_retry_of, retry_row.
  cbn [payment_status timestamp transaction_id customer_id amount
       transaction_type subscription_plan category region customer_type].
  repeat split; auto. exists d. auto.
Qed.

(** C5. The timestamps of the returned frame are non-decreasing from each
    row to the next, whether or not the frame was downsampled. *)
Theorem final_timestamps_sorted num_rows start_day end_day w df w1 :
  generate_synthetic_saas_data num_rows start_day end_day w = inr (df, w1) ->
  Sorted (fun a b => timestamp a <= timestamp b) df.
Proof.
  intros H. apply generate_inv in H
    as (tm & pm & tss & data & extra & rest & _ & _ & _ & _ & _ & _ & Hs & _).
  exact Hs.
Qed.

Lemma final_timestamps_sorted_witness :
  exists df w1,
    generate_synthetic_saas_data 40 19662 19737 mixed_world = inr (df, w1) /\
    Sorted (fun a b => timestamp a <= timestamp b) df.
Proof.
  eexists _, _. split; [ vm_compute; reflexivity | ].
  eapply (final_timestamps_sorted 40 19662 19737 mixed_world).
  vm_compute. reflexivity.
Defined.

(** C6 as stated fails: nothing in the generator compares ids, so two rows
    whose UUIDs start with the same twelve hex digits get the same id. *)
Lemma duplicate_transaction_ids :
  exists df w1,
    generate_synthetic_saas_data 10 19358 19388 zero_world = inr (df, w1) /\
    ~ NoDup (map transaction_id df).
Proof.
  eexists _, _. split; [ vm_compute; reflexivity | ].
  intros H. cbn [map transaction_id] in H.
  inversion H as [ | ? ? Hnotin _]. apply Hnotin. left. reflexivity.
Qed.

(** C6 (amended). The rows of the returned frame are rows of the first
    pass (original rows) and rows that the retry pass appended (retry
    records). The id of an original row is 'REV_' when its category is
    'Revenue' and 'EXP_' otherwise, followed by twelve characters; the id of
    a retry record is 'RETRY_' followed by the twelve characters of the id of
    the 'Failed' original row it was made from. The ids of the frame are
    pairwise distinct provided the twelve-digit UUID prefixes drawn for the
    [num_rows] original rows are pairwise distinct. *)
Theorem transaction_ids_shape_and_uniqueness num_rows start_day end_day w df w1 :
  generate_synthetic_saas_data num_rows start_day end_day w = inr (df, w1) ->
  exists data extra wa wb,
    first_pass num_rows start_day end_day w = inr (data, wa) /\
    retry_pass (end_day * seconds_per_day) (failed_indices_from 0 data) data wa
      = inr (data ++ extra, wb) /\
    (forall r, In r df -> In r data \/ In r extra) /\
    Forall original_id data /\
    Forall (fun r => exists orig, In orig data /\ retry_id_of orig r) extra /\
    (NoDup (uuids_drawn num_rows w) -> NoDup (map transaction_id df)).
Proof.
  intros H. apply generate_passes in H
    as (tm & pm & tss & data & extra & rest & wa & wb
        & Hfirst & Hretry & Hperm & Hrows & Hsuf & Hex).
  exists data, extra, wa, wb.
  split; [ exact Hfirst | ]. split; [ exact Hretry | ].
  split.
  { intros r Hr. apply in_app_or.
    eapply Permutation_in; [ exact Hperm | ]. apply in_or_app. left. exact Hr. }
  split.
  { eapply Forall_impl; [ | exact Hrows ].
    intros r Hr. eapply row_ok_original_id. exact Hr. }
  split.
  { apply Forall_forall. intros r Hr.
    eapply retries_orig in Hr as (idx & orig & d & Hidx & Hn & _ & _ & ->);
      [ | exact Hex ].
    exists orig. split; [ eapply nth_error_In; exact Hn | ].
    apply failed_indices_from_spec in Hidx as (_ & r' & Hn' & Hfailed).
    rewrite Nat.sub_0_r in Hn'. assert (r' = orig) by congruence. subst r'.
    split; [ exact Hfailed | ]. split; [ | reflexivity ].
    rewrite Forall_forall in Hrows.
    eapply row_ok_original_id. apply Hrows. eapply nth_error_In. exact Hn. }
  intros Huu. rewrite <- Hsuf in Huu.
  pose proof (all_ids_NoDup _ _ _ _ _ _ Hrows Hex Huu) as Hnd.
  apply (Permutation_map transaction_id) in Hperm. symmetry in Hperm.
  eapply Permutation_NoDup in Hnd; [ | exact Hperm ].
  rewrite map_app in Hnd. eapply NoDup_app_remove_r. exact Hnd.
Qed.

Lemma transaction_ids_shape_and_uniqueness_witness :
  exists df w1,
    generate_synthetic_saas_data 40 19662 19737 mixed_world = inr (df, w1) /\
    NoDup (uuids_drawn 40 mixed_world) /\
    NoDup (map transaction_id df) /\
    exists data extra,
      (forall r, In r df -> In r data \/ In r extra) /\
      Forall original_id data /\
      Forall (fun r => exists orig, In orig data /\ retry_id_of orig r) extra.
Proof.
  eexists _, _. split; [ vm_compute; reflexivity | ].
  assert (Huu : NoDup (uuids_drawn 40 mixed_world)).
  { apply distinctb_NoDup. vm_compute. reflexivity. }
  split; [ exact Huu | ].
  destruct (transaction_ids_shape_and_uniqueness 40 19662 19737 mixed_world
              _ _ ltac:(vm_compute; reflexivity))
    as (data & extra & wa & wb & _ & _ & Hin & Ho & Hr & Hnd).
  split; [ exact (Hnd Huu) | ].
  exists data, extra. split; [ exact Hin | split; [ exact Ho | exact Hr ] ].
Defined.

(** C9. In the returned frame every row whose category is not 'Revenue'
    has a strictly negative amount. *)
Theorem expense_amounts_negative num_rows start_day end_day w df w1 :
  generate_synthetic_saas_data num_rows start_day end_day w = inr (df, w1) ->
  forall r, In r df -> category r <> Revenue -> (amount r < 0)%Q.
Proof.
  intros H r Hr Hcat. apply generate_rows in H as (tm & pm & Hall).
  rewrite Forall_forall in Hall. apply Hall in Hr as (_ & _ & Hsign & _).
  apply Qlt_alt. rewrite Hsign. unfold amount_sign.
  destruct (is_revenue (category r)) eqn:E; [ | reflexivity ].
  apply is_revenue_true in E. contradiction.
Qed.

Lemma expense_amounts_negative_witness :
  exists df w1,
    generate_synthetic_saas_data 40 19662 19737 mixed_world = inr (df, w1) /\
    (exists r, In r df /\ category r <> Revenue) /\
    forall r, In r df -> category r <> Revenue -> (amount r < 0)%Q.
Proof.
  eexists _, _. split; [ vm_compute; reflexivity | ].
  split.
  - eexists. split; [ do 25 right; left; reflexivity | discriminate ].
  - eapply (expense_amounts_negative 40 19662 19737 mixed_world).
    vm_compute. reflexivity.
Defined.

(** C10. Every timestamp of the returned frame lies in the requested range:
    it is at or after [start_date] and at or before [end_date]. *)
Theorem timestamps_within_range num_rows start_day end_day w df w1 :
  generate_synthetic_saas_data num_rows start_day end_day w = inr (df, w1) ->
  forall r, In r df ->
    start_day * seconds_per_day <= timestamp r <= end_day * seconds_per_day.
Proof.
  intros H r Hr. apply generate_rows in H as (tm & pm & Hall).
  rewrite Forall_forall in Hall. apply Hall in Hr as (_ & _ & _ & Hts).
  exact Hts.
Qed.

Lemma timestamps_within_range_witness :
  exists df w1,
    generate_synthetic_saas_data 40 19662 19737 mixed_world = inr (df, w1) /\
    forall r, In r df ->
      19662 * seconds_per_day <= timestamp r <= 19737 * seconds_per_day.
Proof.
  eexists _, _. split; [ vm_compute; reflexivity | ].
  eapply (timestamps_within_range 40 19662 19737 mixed_world).
  vm_compute. reflexivity.
Defined.

(* ================================================================= *)
(** ** The loader: properties of the specification *)

(** C7. When the CSV path does not exist, [load_data_to_bigquery] returns
    [False] and raises nothing: it logs the start and the missing file, and
    calls nothing but the existence test. *)
Theorem loader_missing_file env csv_file project_id dataset_id table_id key_path :
  Loader.path_exists env csv_file = false ->
  Loader.load_data_to_bigquery env csv_file project_id dataset_id table_id
                               key_path
  = ([Loader.Log Loader.INFO ("Starting BigQuery load process for " ++ csv_file);
      Loader.Call Loader.PathExists false;
      Loader.Log Loader.ERROR ("CSV file not found: " ++ csv_file)],
     Loader.Ok false).
Proof.
  intros H. unfold Loader.load_data_to_bigquery, Loader.load_body.
  rewrite H. reflexivity.
Qed.

Lemma loader_missing_file_witness :
  Loader.path_exists Loader.env_no_file "financial_data.csv" = false /\
  snd (Loader.load_data_to_bigquery Loader.env_no_file "financial_data.csv"
         "financial-reporting-pipeline" "financial_data" "transactions"
         "key.json")
  = Loader.Ok false.
Proof.
  split; [ reflexivity | ].
  rewrite (loader_missing_file Loader.env_no_file "financial_data.csv"
             "financial-reporting-pipeline" "financial_data" "transactions"
             "key.json" eq_refl).
  reflexivity.
Defined.



(** A failing load job gives [False], with the Google Cloud error logged
    last. *)
Example loader_failing_job :
  let run := Loader.load_data_to_bigquery Loader.env_failing_job
               "financial_data.csv" "financial-reporting-pipeline"
               "financial_data" "transactions" "key.json" in
  snd run = Loader.Ok false /\
  last (fst run) (Loader.Call Loader.PathExists false)
  = Loader.Log Loader.ERROR "Google Cloud error: 400 Bad request".
Proof. split; reflexivity. Qed.

(* ================================================================= *)
(** ** The generator: further properties *)

(** X1. Every [customer_id] of the returned frame is 'CUST_' followed by the
    zero-padded number of a customer of the pool, a number from 1 to
    [int(num_rows / 10)]; so the frame has at most [int(num_rows / 10)]
    distinct customers. *)
Theorem customers_from_pool num_rows start_day end_day w df w1 :
  generate_synthetic_saas_data num_rows start_day end_day w = inr (df, w1) ->
  (forall r, In r df ->
     exists i, (1 <= i <= Z.to_nat (Z.quot num_rows 10))%nat /\
               customer_id r = ("CUST_" ++ zfill 6 (str i))%string) /\
  (forall ids, NoDup ids -> incl ids (map customer_id df) ->
     (List.length ids <= Z.to_nat (Z.quot num_rows 10))%nat).
Proof.
  intros H. apply generate_structure in H
    as (tm & pm & dates & tss & data & extra & rest & wa & wb & wc & wd
        & _ & _ & _ & _ & Hrows & Hex & Hperm).
  assert (Hall : Forall (fun r => In (customer_id r) (customer_ids_of num_rows)) df).
  { eapply final_rows_lift; [ | | exact Hex | exact Hperm ].
    - intros orig d Ho _. exact Ho.
    - eapply Forall_impl; [ | exact Hrows ].
      intros r (i & w2 & w3 & Hr). eapply generate_row_customer. exact Hr. }
  rewrite Forall_forall in Hall. split.
  - intros r Hr. apply customer_ids_of_spec. apply Hall. exact Hr.
  - intros ids Hnd Hincl.
    replace (Z.to_nat (Z.quot num_rows 10))
      with (List.length (customer_ids_of num_rows))
      by (unfold customer_ids_of; rewrite length_map, length_seq; reflexivity).
    apply NoDup_incl_length; [ exact Hnd | ].
    intros cid Hcid. apply Hincl in Hcid.
    apply in_map_iff in Hcid as (r & <- & Hr). apply Hall. exact Hr.
Qed.

Lemma customers_from_pool_witness :
  exists df w1,
    generate_synthetic_saas_data 40 19662 19737 mixed_world = inr (df, w1) /\
    forall r, In r df ->
      exists i, (1 <= i <= 4)%nat /\
                customer_id r = ("CUST_" ++ zfill 6 (str i))%string.
Proof.
  eexists _, _. split; [ vm_compute; reflexivity | ].
  refine (proj1 (customers_from_pool 40 19662 19737 mixed_world _ _ _)).
  vm_compute. reflexivity.
Defined.

(** X2. In every row of the returned frame the subscription plan is one
    that [assign_plan] offers to the row's customer type: Free, Basic or Pro
    for B2C; Basic or Pro for SMB; Pro or Enterprise for Mid-Market;
    Enterprise or Custom for Enterprise. *)
Theorem plan_matches_customer_type num_rows start_day end_day w df w1 :
  generate_synthetic_saas_data num_rows start_day end_day w = inr (df, w1) ->
  forall r, In r df ->
    plan_allowed (customer_type r) (subscription_plan r) = true.
Proof.
  intros H. apply generate_structure in H
    as (tm & pm & dates & tss & data & extra & rest & wa & wb & wc & wd
        & Htm & Hpm & _ & _ & Hrows & Hex & Hperm).
  apply Forall_forall.
  eapply final_rows_lift; [ | | exact Hex | exact Hperm ].
  - intros orig d Ho _. exact Ho.
  - eapply Forall_impl; [ | exact Hrows ].
    intros r (i & w2 & w3 & Hr).
    apply generate_row_inv in Hr as (Ht & Hp & _).
    eapply plan_map_allowed; eassumption.
Qed.

Lemma plan_matches_customer_type_witness :
  exists df w1,
    generate_synthetic_saas_data 40 19662 19737 mixed_world = inr (df, w1) /\
    forall r, In r df ->
      plan_allowed (customer_type r) (subscription_plan r) = true.
Proof.
  eexists _, _. split; [ vm_compute; reflexivity | ].
  eapply (plan_matches_customer_type 40 19662 19737 mixed_world).
  vm_compute. reflexivity.
Defined.

(** X3. Every timestamp of the returned frame, of a retry record too, has a
    time of day from 08:00:00 to 20:59:59. *)
Theorem business_hours num_rows start_day end_day w df w1 :
  generate_synthetic_saas_data num_rows start_day end_day w = inr (df, w1) ->
  forall r, In r df -> 28800 <= time_of_day (timestamp r) <= 75599.
Proof.
  intros H. apply generate_structure in H
    as (tm & pm & dates & tss & data & extra & rest & wa & wb & wc & wd
        & _ & _ & Hdates & Htss & Hrows & Hex & Hperm).
  pose proof (timestamps_time_of_day _ _ _ _ _ _ _ _ _ Hdates Htss) as Htod.
  apply Forall_forall.
  eapply final_rows_lift; [ | | exact Hex | exact Hperm ].
  - intros orig d Ho _. cbn [retry_row timestamp].
    unfold time_of_day, timedelta_days in *. rewrite Z_mod_plus_full. exact Ho.
  - eapply Forall_impl; [ | exact Hrows ].
    intros r (i & w2 & w3 & Hr).
    apply generate_row_inv in Hr as (_ & _ & Hts & _).
    apply nth_error_In in Hts.
    rewrite Forall_forall in Htod. apply Htod. exact Hts.
Qed.

Lemma business_hours_witness :
  exists df w1,
    generate_synthetic_saas_data 40 19662 19737 mixed_world = inr (df, w1) /\
    forall r, In r df -> 28800 <= time_of_day (timestamp r) <= 75599.
Proof.
  eexists _, _. split; [ vm_compute; reflexivity | ].
  eapply (business_hours 40 19662 19737 mixed_world).
  vm_compute. reflexivity.
Defined.

(** X4. In the returned frame a row is of category 'Revenue' exactly when
    its transaction type is not 'Downgrade': every downgrade is booked under
    an expense category, every expense row is a downgrade, and the
    'Downgrade' branch under 'Revenue' (lines 116-117) is never taken. *)
Theorem revenue_iff_not_downgrade num_rows start_day end_day w df w1 :
  generate_synthetic_saas_data num_rows start_day end_day w = inr (df, w1) ->
  forall r, In r df ->
    (category r = Revenue <-> transaction_type r <> Downgrade).
Proof.
  intros H. apply generate_inv in H
    as (tm & pm & tss & data & extra & rest
        & _ & Hrows & _ & _ & Hex & Hperm & _ & _).
  apply Forall_forall.
  eapply final_rows_lift; [ | | exact Hex | exact Hperm ].
  - intros orig d Ho _. exact Ho.
  - eapply Forall_impl; [ | exact Hrows ].
    intros r (_ & _ & _ & _ & Hrev & _).
    split.
    + intros Hc. apply is_revenue_true in Hc. rewrite Hc in Hrev.
      destruct (transaction_type r); congruence.
    + intros Hn. apply is_revenue_true. rewrite Hrev.
      destruct (transaction_type r); congruence.
Qed.

Lemma revenue_iff_not_downgrade_witness :
  exists df w1,
    generate_synthetic_saas_data 40 19662 19737 mixed_world = inr (df, w1) /\
    forall r, In r df ->
      (category r = Revenue <-> transaction_type r <> Downgrade).
Proof.
  eexists _, _. split; [ vm_compute; reflexivity | ].
  eapply (revenue_iff_not_downgrade 40 19662 19737 mixed_world).
  vm_compute. reflexivity.
Defined.

(** X5. Every amount of the returned frame is a whole number of cents. A
    row outside 'Revenue' has an amount from -6500 to -10; a 'Revenue' row
    has an amount from -650 to 780. *)
Theorem amounts_in_range num_rows start_day end_day w df w1 :
  generate_synthetic_saas_data num_rows start_day end_day w = inr (df, w1) ->
  forall r, In r df ->
    (exists cents, amount r = cents # 100) /\
    (category r <> Revenue -> (-6500 <= amount r <= -10)%Q) /\
    (category r = Revenue -> (-650 <= amount r <= 780)%Q).
Proof.
  intros H. apply generate_structure in H
    as (tm & pm & dates & tss & data & extra & rest & wa & wb & wc & wd
        & _ & _ & _ & _ & Hrows & Hex & Hperm).
  apply Forall_forall.
  eapply final_rows_lift; [ | | exact Hex | exact Hperm ].
  - intros orig d Ho _. exact Ho.
  - eapply Forall_impl; [ | exact Hrows ].
    intros r (i & w2 & w3 & Hr). eapply generate_row_amount. exact Hr.
Qed.

Lemma amounts_in_range_witness :
  exists df w1,
    generate_synthetic_saas_data 40 19662 19737 mixed_world = inr (df, w1) /\
    forall r, In r df ->
      (exists cents, amount r = cents # 100) /\
      (category r <> Revenue -> (-6500 <= amount r <= -10)%Q) /\
      (category r = Revenue -> (-650 <= amount r <= 780)%Q).
Proof.
  eexists _, _. split; [ vm_compute; reflexivity | ].
  eapply (amounts_in_range 40 19662 19737 mixed_world).
  vm_compute. reflexivity.
Defined.

(** X6. The retry pass keeps the rows of the frame in place and appends at
    most one record per 'Failed' row; a frame without a 'Failed' row comes
    back unchanged. *)
Theorem retry_pass_growth end_date df w :
  exists df1 w1 extra,
    retry_pass end_date (failed_indices_from 0 df) df w = inr (df1, w1) /\
    df1 = df ++ extra /\
    (List.length extra
     <= List.length (filter (fun r => is_failed (payment_status r)) df))%nat /\
    (Forall (fun r => payment_status r <> Failed) df -> df1 = df).
Proof.
  assert (Hb : Forall (fun i => (i < List.length df)%nat)
                      (failed_indices_from 0 df)).
  { apply Forall_forall. intros i Hi. apply failed_indices_from_bound. exact Hi. }
  destruct (retry_pass_ok end_date (failed_indices_from 0 df) df w Hb)
    as (df1 & w1 & H).
  exists df1, w1.
  pose proof H as H'. rewrite <- (app_nil_r df) in H' at 2.
  apply retry_pass_inv in H' as (extra & -> & Hex); [ | exact Hb ].
  apply retries_length in Hex. rewrite failed_indices_from_length in Hex.
  exists extra. simpl. repeat split; auto.
  intros Hnone.
  assert (E : filter (fun r => is_failed (payment_status r)) df = []).
  { clear - Hnone. induction Hnone as [ | r df Hr _ IH]; simpl.
    - reflexivity.
    - destruct (payment_status r); simpl; congruence. }
  rewrite E in Hex. destruct extra; [ apply app_nil_r | simpl in Hex; lia ].
Qed.

(** X7. With fewer than ten rows requested or an end date that is not after
    the start date the generator raises: [KeyError] when [num_rows] is zero
    or negative (the empty frame has no 'payment_status' column), and
    [ValueError] otherwise (from [np.random.randint] on an empty range of
    days, or from [np.random.choice] on the empty customer pool). *)
Theorem generate_raises num_rows start_day end_day w :
  num_rows < 10 \/ end_day <= start_day ->
  generate_synthetic_saas_data num_rows start_day end_day w
  = inl (generator_error num_rows).
Proof.
  intros Hbad. unfold generator_error, generate_synthetic_saas_data, range.
  destruct (Z.leb_spec num_rows 0) as [Hn | Hn].
  - assert (Hq : Z.to_nat (Z.quot num_rows 10) = 0%nat).
    { assert (Z.quot num_rows 10 <= Z.quot 0 10)
        by (apply Z.quot_le_mono; lia).
      change (Z.quot 0 10) with 0 in *. lia. }
    assert (Hr : Z.to_nat num_rows = 0%nat) by lia.
    rewrite Hq, Hr. reflexivity.
  - destruct (returns_dict_comprehension _ _ (fun cid : string => cid)
                (fun _ => np_choice_p customer_types customer_type_weights)
                (map (fun i => ("CUST_" ++ zfill 6 (str i))%string)
                     (seq 1 (Z.to_nat (Z.quot num_rows 10))))
                (fun _ => returns_np_choice_p _ customer_types
                            customer_type_weights ltac:(discriminate)
                            eq_refl eq_refl)
                [] w) as (tm & wa & Htm & _).
    rewrite (bind_step _ _ _ _ _ _ _ Htm).
    destruct (returns_dict_comprehension _ _ fst
                (fun item : string * CustomerType => assign_plan (snd item)) tm
                (fun x => returns_assign_plan (snd x)) [] wa)
      as (pm & wb & Hpm & _).
    rewrite (bind_step _ _ _ _ _ _ _ Hpm).
    destruct (Z.to_nat num_rows) as [ | n] eqn:En; [ lia | ].
    destruct (Z.le_gt_cases end_day start_day) as [Hd | Hd].
    + apply bind_inl. cbn [seq for_each]. apply bind_inl. apply bind_inl.
      apply np_randint_raises. lia.
    + assert (Hlt : num_rows < 10) by lia.
      assert (Hq : Z.quot num_rows 10 = 0) by (apply Z.quot_small; lia).
      rewrite Hq in Htm. cbn in Htm. apply ret_inr in Htm as [-> ->].
      cbn in Hpm. apply ret_inr in Hpm as [-> ->].
      rewrite Hq. cbn [Z.to_nat seq map].
      match goal with
      | |- bind (for_each ?f ?l) _ ?w0 = _ =>
          destruct (returns_for_each _ _ f l) with (w := w0)
            as (dates & wc & Hdates & _)
      end.
      { intros k _. apply returns_bind; [ | intros; apply returns_ret ].
        apply returns_np_randint. lia. }
      rewrite (bind_step _ _ _ _ _ _ _ Hdates).
      match goal with
      | |- bind (for_each ?f ?l) _ _ = _ =>
          destruct (returns_for_each _ _ f l) with (w := wc)
            as (tss & wd & Htss & _)
      end.
      { intros date _. pose proof returns_random_randint. returns. }
      rewrite (bind_step _ _ _ _ _ _ _ Htss).
      apply bind_inl. cbn [seq for_each]. apply bind_inl.
      reflexivity.
Qed.

Lemma generate_raises_witness :
  (9 < 10 \/ 19388 <= 19358) /\
  generate_synthetic_saas_data 9 19358 19388 mixed_world = inl ValueError.
Proof.
  split; [ left; lia | ].
  exact (generate_raises 9 19358 19388 mixed_world (or_introl eq_refl)).
Defined.

(** X8. The script of the generator always gets its dataset: whatever the
    random streams, the row count drawn by [random.randint(10000, 20000)]
    and the default dates are served, and the dataset has between 10000 and
    20000 rows. *)
Theorem generator_script_dataset w :
  exists df w1,
    generator_script w = inr (df, w1) /\
    10000 <= Z.of_nat (List.length df) <= 20000.
Proof.
  unfold generator_script.
  destruct (returns_random_randint 10000 20000 w) as (n & wa & Hn & _).
  assert (Hrange : 10000 <= n <= 20000).
  { eapply random_randint_range; [ | exact Hn ]. lia. }
  destruct (generate_returns n default_start_day default_end_day wa)
    as (df & w1 & H); [ lia | unfold default_start_day, default_end_day; lia | ].
  exists df, w1. rewrite (bind_step _ _ _ _ _ _ _ Hn). split; [ exact H | ].
  apply generate_inv in H
    as (tm & pm & tss & data & extra & rest & _ & _ & _ & _ & _ & _ & _ & Hlen).
  lia.
Qed.

(** X17. A subscription is charged at the plan price outside the seasonal
    windows: in the returned frame an original row (one that is not a retry
    record) of type 'Subscription' whose timestamp falls before the 25th of
    a month other than December has the price of its plan as amount. *)
Theorem subscription_at_plan_price num_rows start_day end_day w df w1 :
  generate_synthetic_saas_data num_rows start_day end_day w = inr (df, w1) ->
  forall r, In r df ->
    is_retry_id r = false ->
    transaction_type r = Subscription ->
    day_of (timestamp r) < 25 -> month_of (timestamp r) <> 12 ->
    (amount r == plan_prices (subscription_plan r))%Q.
Proof.
  intros H. apply generate_structure in H
    as (tm & pm & dates & tss & data & extra & rest & wa & wb & wc & wd
        & _ & _ & _ & _ & Hrows & Hex & Hperm).
  assert (Hall : Forall (fun r =>
            is_retry_id r = true \/
            (transaction_type r = Subscription ->
             day_of (timestamp r) < 25 -> month_of (timestamp r) <> 12 ->
             (amount r == plan_prices (subscription_plan r))%Q)) df).
  { eapply final_rows_lift; [ | | exact Hex | exact Hperm ].
    - intros orig d _ _. left. unfold is_retry_id, retry_row.
      cbn [transaction_id].
      destruct (drop_chars 4 (transaction_id orig)); reflexivity.
    - eapply Forall_impl; [ | exact Hrows ].
      intros r (i & w2 & w3 & Hr). right.
      eapply generate_row_subscription_price. exact Hr. }
  rewrite Forall_forall in Hall.
  intros r Hr Hnot. destruct (Hall r Hr) as [Hretry | Hprice];
    [ congruence | exact Hprice ].
Qed.

Lemma subscription_at_plan_price_witness :
  exists df w1 r,
    generate_synthetic_saas_data 40 19662 19737 mixed_world = inr (df, w1) /\
    In r df /\ subscription_plan r = Basic /\ (amount r == 1999 # 100)%Q.
Proof.
  eexists _, _, _. split; [ vm_compute; reflexivity | ].
  split; [ do 2 right; left; reflexivity | ].
  split; [ reflexivity | ].
  eapply (subscription_at_plan_price 40 19662 19737 mixed_world);
    [ vm_compute; reflexivity
    | do 2 right; left; reflexivity
    | reflexivity
    | reflexivity
    | vm_compute; reflexivity
    | vm_compute; discriminate ].
Defined.

(* ================================================================= *)
(** ** The loader: further properties *)

(** X9. The loader calls its collaborators in one fixed order, each at most
    once: existence test, CSV read, timestamp conversion, client, dataset
    check, dataset creation, load job, job completion, table re-fetch. *)
Theorem loader_calls_in_order env csv_file project_id dataset_id table_id key_path :
  StronglySorted (fun a b => (Loader.rank a < Loader.rank b)%nat)
    (Loader.calls
       (fst (Loader.load_data_to_bigquery env csv_file project_id dataset_id
               table_id key_path))).
Proof.
  loader_paths env csv_file project_id dataset_id table_id key_path;
    unfold Loader.calls in *; simpl; rewrite ?flat_map_app, ?Hcalls; simpl;
    repeat constructor; simpl; lia.
Qed.

(** Decides the membership of a call in an explicit trace. *)
Ltac trace_membership Hnocall :=
  simpl in *; rewrite ?in_app_iff in *; simpl in *;
  solve [ intuition (try discriminate; try congruence;
                     try (exfalso; eapply Hnocall; eassumption)) ].

(** X10. The dataset is created exactly when the dataset check raised:
    [create_dataset] is called in the runs in which [get_dataset] raised an
    exception, of whatever kind, and in no other run. *)
Theorem loader_creates_dataset_iff_check_raised
    env csv_file project_id dataset_id table_id key_path :
  let t := fst (Loader.load_data_to_bigquery env csv_file project_id
                  dataset_id table_id key_path) in
  In Loader.CreateDataset (Loader.calls t)
  <-> Loader.raised_in t Loader.GetDataset.
Proof.
  cbv zeta. unfold Loader.raised_in.
  loader_paths env csv_file project_id dataset_id table_id key_path;
    unfold Loader.calls in *; simpl; rewrite ?flat_map_app, ?Hcalls; simpl;
    (split; intros H); trace_membership Hnocall.
Qed.

(** X11. Nothing is called after a failure: when an operation other than
    the dataset check raised, it is the last operation of the run. *)
Theorem loader_stops_at_failure
    env csv_file project_id dataset_id table_id key_path :
  let t := fst (Loader.load_data_to_bigquery env csv_file project_id
                  dataset_id table_id key_path) in
  forall op, Loader.raised_in t op -> op <> Loader.GetDataset ->
    last (Loader.calls t) Loader.PathExists = op.
Proof.
  cbv zeta. unfold Loader.raised_in.
  loader_paths env csv_file project_id dataset_id table_id key_path;
    unfold Loader.calls in *; simpl; rewrite ?flat_map_app, ?Hcalls; simpl;
    intros op H Hne; trace_cases H Hnocall;
    injection H as <-; solve [ reflexivity | congruence ].
Qed.

Lemma loader_stops_at_failure_witness :
  let t := fst (Loader.load_data_to_bigquery Loader.env_failing_job
                  "financial_data.csv" "financial-reporting-pipeline"
                  "financial_data" "transactions" "key.json") in
  Loader.raised_in t Loader.JobResult /\
  last (Loader.calls t) Loader.PathExists = Loader.JobResult.
Proof.
  cbv zeta.
  assert (H : Loader.raised_in
                (fst (Loader.load_data_to_bigquery Loader.env_failing_job
                        "financial_data.csv" "financial-reporting-pipeline"
                        "financial_data" "transactions" "key.json"))
                Loader.JobResult).
  { unfold Loader.raised_in. vm_compute. tauto. }
  split; [ exact H | ].
  apply (loader_stops_at_failure Loader.env_failing_job "financial_data.csv"
           "financial-reporting-pipeline" "financial_data" "transactions"
           "key.json" Loader.JobResult H).
  discriminate.
Defined.

(** X12. A failure is logged once and last: a run that returns [False] has
    exactly one ERROR record, the last record of its trace; a run that
    returns [True] has none. *)
Theorem loader_failure_logged_once
    env csv_file project_id dataset_id table_id key_path :
  let run := Loader.load_data_to_bigquery env csv_file project_id dataset_id
               table_id key_path in
  exists b,
    snd run = Loader.Ok b /\
    List.length (filter Loader.is_error_log (fst run))
      = (if b then 0 else 1)%nat /\
    (b = false ->
     Loader.is_error_log (hd (Loader.Log Loader.INFO "") (rev (fst run)))
       = true).
Proof.
  cbv zeta.
  loader_paths env csv_file project_id dataset_id table_id key_path;
    (eexists; split; [ reflexivity | ]);
    rewrite ?filter_app, ?Hnoerr; simpl;
    (split; [ reflexivity | ]);
    try (intros; discriminate);
    intros _; rewrite ?rev_app_distr; simpl; reflexivity.
Qed.

(** X13. Nulls only warn: when the file was read, the WARNING records of
    the run are those of the critical columns that the frame has and that
    hold a null, in the order of the list of critical columns, whatever
    happens afterwards. *)
Theorem loader_null_warnings env csv_file project_id dataset_id table_id key_path df :
  Loader.path_exists env csv_file = true ->
  Loader.read_csv env csv_file = Loader.Ok df ->
  filter Loader.is_warning_log
    (fst (Loader.load_data_to_bigquery env csv_file project_id dataset_id
            table_id key_path))
  = map (Loader.null_warning df)
        (filter (Loader.has_nulls df) Loader.critical_columns).
Proof.
  intros Hp Hr. revert Hp Hr.
  loader_paths env csv_file project_id dataset_id table_id key_path;
    intros Hp Hr; try discriminate;
    injection Hr as <-;
    rewrite ?filter_app, ?Hwarn; simpl; rewrite ?app_nil_r; exact Htc.
Qed.

Lemma loader_null_warnings_witness :
  filter Loader.is_warning_log
    (fst (Loader.load_data_to_bigquery Loader.env_failing_job
            "financial_data.csv" "financial-reporting-pipeline"
            "financial_data" "transactions" "key.json"))
  = [Loader.Log Loader.WARNING
       "Found 1 null values in critical column transaction_id";
     Loader.Log Loader.WARNING
       "Found 1 null values in critical column amount"].
Proof.
  rewrite (loader_null_warnings Loader.env_failing_job "financial_data.csv"
             "financial-reporting-pipeline" "financial_data" "transactions"
             "key.json" _ eq_refl eq_refl).
  reflexivity.
Defined.

(** X14. The timestamp column is converted exactly when the file exists,
    was read, and has a column named 'timestamp'; a frame without that
    column goes on to the load unconverted. *)
Theorem loader_converts_iff_timestamp_column
    env csv_file project_id dataset_id table_id key_path :
  In Loader.ToDatetime
     (Loader.calls
        (fst (Loader.load_data_to_bigquery env csv_file project_id dataset_id
                table_id key_path)))
  <-> (Loader.path_exists env csv_file = true /\
       exists df, Loader.read_csv env csv_file = Loader.Ok df /\
                  Loader.has_column df "timestamp" = true).
Proof.
  loader_paths env csv_file project_id dataset_id table_id key_path;
    unfold Loader.calls in *; simpl; rewrite ?flat_map_app, ?Hcalls; simpl;
    (split;
     [ intros H;
       first [ solve [ intuition discriminate ]
             | split; [ reflexivity | eexists; split; [ reflexivity | assumption ] ] ]
     | intros (Hp & df0 & Hr & Hc);
       first [ discriminate Hp | discriminate Hr
             | injection Hr as <-; first [ congruence | tauto ] ] ]).
Qed.

(** X15. The exit status of the loader script is 0 or 1, and it is 0
    exactly when the file of the configuration exists, was read and
    converted, the client was built, the dataset exists or was created, and
    the load job, its completion and the table re-fetch succeeded. *)
Theorem loader_main_exit_status env :
  (snd (Loader.main env) = 0 \/ snd (Loader.main env) = 1) /\
  (snd (Loader.main env) = 0 <->
   Loader.steps_completed env Loader.CSV_FILE Loader.PROJECT_ID
     Loader.DATASET_ID Loader.TABLE_ID Loader.KEY_PATH = true).
Proof.
  unfold Loader.main, Loader.steps_completed, Loader.frame_to_load.
  loader_paths env Loader.CSV_FILE Loader.PROJECT_ID Loader.DATASET_ID
               Loader.TABLE_ID Loader.KEY_PATH;
    (split; [ auto | split; intros H; solve [ reflexivity | discriminate H ] ]).
Qed.

(** X16. The loader script does not pick up the file that the generator
    script writes: the generator saves 'financial_data.csv', the loader is
    configured for 'synthetic_saas_financial_data.csv'. Where no file
    exists but the generator's output, the loader script tests for its own
    file, logs the two errors and exits with status 1, without reading
    anything or contacting BigQuery. *)
Theorem loader_main_misses_generator_output env :
  (forall path, Loader.path_exists env path = true -> path = output_file) ->
  Loader.main env
  = ([Loader.Log Loader.INFO
        "Starting BigQuery load process for synthetic_saas_financial_data.csv";
      Loader.Call Loader.PathExists false;
      Loader.Log Loader.ERROR
        "CSV file not found: synthetic_saas_financial_data.csv";
      Loader.Log Loader.ERROR "❌ Data loading failed"],
     1).
Proof.
  intros Honly.
  assert (Hmiss : Loader.path_exists env Loader.CSV_FILE = false).
  { destruct (Loader.path_exists env Loader.CSV_FILE) eqn:E; [ | reflexivity ].
    apply Honly in E. discriminate E. }
  unfold Loader.main, Loader.load_data_to_bigquery, Loader.load_body.
  rewrite Hmiss. reflexivity.
Qed.

Lemma loader_main_misses_generator_output_witness :
  Loader.path_exists Loader.env_generator_output output_file = true /\
  snd (Loader.main Loader.env_generator_output) = 1.
Proof.
  split; [ reflexivity | ].
  rewrite (loader_main_misses_generator_output Loader.env_generator_output).
  - reflexivity.
  - intros path H. apply String.eqb_eq in H. symmetry. exact H.
Defined.
